(** * zatt client: [zatt/client/distributedDict.py]

    A shallow embedding of the client side of zatt: the request path with
    its leader redirects ([AbstractClient]), the four refresh policies, and
    the dictionary facade ([DistributedDict]) with its bounded write retry.

    The objects of the program are mutable and its methods raise, so the
    methods are written in a state-and-exception monad over the instance
    attributes and the outside world.  The outside world (the cluster
    answering on sockets, [random], the wall clock) is a script [Env]; the
    part of it that the program consumes is recorded in [World]. *)

From stdpp Require Import base gmap strings list.
From Stdlib Require Import ZArith Lia.
Set Warnings "-register-all".

(** ** Python values *)

(** What msgpack hands to the client and what the application stores:
    [None], booleans, integers, strings and arrays (a Python list or tuple).
    A decoded response itself is a dict with string keys, [dict]. *)
Inductive value : Type :=
  | VNone
  | VBool (b : bool)
  | VInt (z : Z)
  | VStr (s : string)
  | VList (l : list value).

Abbreviation dict := (gmap string value).

(** A socket address is whatever tuple the program passes to [connect]. *)
Abbreviation address := (list value).

(** The exceptions that the modelled statements raise.  [OSError] and
    [UnpackException] come out of the socket calls and of
    [msgpack.unpackb]; [RecursionError] is what the interpreter raises when
    a call finds no room on its stack. *)
Inductive exn : Type :=
  | AttributeError
  | KeyError
  | TypeError
  | IndexError
  | UnboundLocalError
  | RecursionError
  | OSError
  | UnpackException.

(** Truth value of an object, as tested by [if]. *)
Definition truthy (v : value) : bool :=
  match v with
  | VNone => false
  | VBool b => b
  | VInt z => negb (z =? 0)%Z
  | VStr s => negb (String.eqb s "")
  | VList l => negb (length l =? 0)%nat
  end.

(** The one-character strings of a string, as iteration yields them. *)
Fixpoint chars (s : string) : list value :=
  match s with
  | EmptyString => []
  | String c s' => VStr (String c EmptyString) :: chars s'
  end.

(** [tuple(v)]: the elements of an iterable, [TypeError] otherwise. *)
Definition tuple (v : value) : exn + address :=
  match v with
  | VList l => inr l
  | VStr s => inr (chars s)
  | VNone | VBool _ | VInt _ => inl TypeError
  end.

(** ** Messages *)

(** The dict literals that the client sends, by shape:
    [{'action': 'change', 'key': k, 'value': v}] and
    [{'action': 'delete', 'key': k}] for the payload, and
    [{'type': 'get'}], [{'type': 'append', 'data': payload}],
    [{'type': 'diagnostic'}],
    [{'type': 'config', 'action': a, 'address': h, 'port': p}]. *)
Inductive Payload : Type :=
  | Change (key : string) (val : value)
  | Delete (key : string).

Inductive Message : Type :=
  | Get
  | Append (payload : Payload)
  | Diagnostic
  | Config (action addr port : value).

(** ['type' in resp and resp['type'] == 'redirect'] *)
Definition is_redirect (resp : dict) : bool :=
  match resp !! "type" with
  | Some (VStr s) => String.eqb s "redirect"
  | _ => false
  end.

(** ** The outside world *)

(** [net h a m] is what comes back from one connection: connect to [a],
    send [m], read until the peer closes, decode; [h] is the list of the
    exchanges made before it, oldest first, so the cluster may answer from
    its whole past.  [rand i] is the [i]-th number drawn by [random], and
    [clock i] the [i]-th reading of [datetime.datetime.now()], in
    microseconds. *)
Record Env : Type := {
  net : list (address * Message) -> address -> Message -> exn + dict;
  rand : nat -> nat;
  clock : nat -> Z
}.

Record World : Type := {
  sent : list (address * Message);
  draws : nat;
  ticks : nat
}.

(** ** Refresh policies *)

(** The argument given for [delta]: a [datetime.timedelta] (microseconds)
    or a callable without arguments that returns such an object. *)
Inductive pyobj : Type :=
  | Timedelta (us : Z)
  | Callable (result : pyobj).

Record RefreshPolicyCount : Type := {
  counter : Z;
  maximum : Z
}.

Record RefreshPolicyTime : Type := {
  delta : pyobj;
  last_refresh : option Z
}.

Inductive RefreshPolicy : Type :=
  | PolicyAlways
  | PolicyLock (lock : bool)
  | PolicyCount (p : RefreshPolicyCount)
  | PolicyTime (p : RefreshPolicyTime).

(** ** The instance *)

(** The attributes of a [DistributedDict].  [server_address] does not exist
    until [_get_state] or a redirect assigns it. *)
Record Object : Type := {
  server_address : option address;
  data : dict;
  append_retry_attempts : Z;
  refresh_policy : RefreshPolicy
}.

Record State : Type := {
  self : Object;
  world : World
}.

Definition with_server_address (a : address) (o : Object) : Object :=
  {| server_address := Some a;
     data := data o;
     append_retry_attempts := append_retry_attempts o;
     refresh_policy := refresh_policy o |}.

Definition with_data (d : dict) (o : Object) : Object :=
  {| server_address := server_address o;
     data := d;
     append_retry_attempts := append_retry_attempts o;
     refresh_policy := refresh_policy o |}.

Definition with_refresh_policy (p : RefreshPolicy) (o : Object) : Object :=
  {| server_address := server_address o;
     data := data o;
     append_retry_attempts := append_retry_attempts o;
     refresh_policy := p |}.

(** ** The monad of methods *)

(** A call returns or raises; in both cases the mutations made so far
    stay. *)
Inductive res (A : Type) : Type :=
  | Ret (a : A)
  | Raise (e : exn).
Arguments Ret {A} a.
Arguments Raise {A} e.

Definition M (A : Type) : Type := State -> res A * State.

Definition ret {A} (a : A) : M A := fun st => (Ret a, st).

Definition raise {A} (e : exn) : M A := fun st => (Raise e, st).

Definition bind {A B} (c : M A) (k : A -> M B) : M B :=
  fun st =>
    match c st with
    | (Ret a, st') => k a st'
    | (Raise e, st') => (Raise e, st')
    end.

Definition lift {A} (r : exn + A) : M A :=
  match r with
  | inl e => raise e
  | inr a => ret a
  end.

Definition gets {A} (f : Object -> A) : M A := fun st => (Ret (f (self st)), st).

Definition modify (f : Object -> Object) : M unit :=
  fun st => (Ret tt, {| self := f (self st); world := world st |}).

Notation "'let!' x ':=' c 'in' k" := (bind c (fun x => k))
  (at level 10, x name, c at level 100, k at level 200, only parsing).
Notation "c '>>' k" := (bind c (fun _ => k))
  (at level 90, right associativity, only parsing).

(** [d[key]] on a dict. *)
Definition getitem (d : dict) (key : string) : M value :=
  match d !! key with
  | Some v => ret v
  | None => raise KeyError
  end.

(** [del d[key]] on [self.data]. *)
Definition delitem_data (key : string) : M unit :=
  fun st =>
    match data (self st) !! key with
    | Some _ =>
        (Ret tt, {| self := with_data (delete key (data (self st))) (self st);
                    world := world st |})
    | None => (Raise KeyError, st)
    end.

(** [self.server_address], read. *)
Definition attr_server_address : M address :=
  fun st =>
    match server_address (self st) with
    | Some a => (Ret a, st)
    | None => (Raise AttributeError, st)
    end.

(** The state once one more exchange is on record. *)
Definition logged (a : address) (message : Message) (st : State) : State :=
  {| self := self st;
     world := {| sent := sent (world st) ++ [(a, message)];
                 draws := draws (world st);
                 ticks := ticks (world st) |} |}.

(** The state once [self.server_address] is assigned. *)
Definition moved (a : address) (st : State) : State :=
  {| self := with_server_address a (self st); world := world st |}.

(** [self.server_address = a] *)
Definition assign_server_address (a : address) : M unit :=
  fun st => (Ret tt, moved a st).

(** ** Primitives that touch the outside world *)

Section Primitives.

Variable E : Env.

(** Lines 16-27 of [_request]: one connection, from [socket.socket] to
    [sock.close()].  The exchange is recorded whether or not it succeeds. *)
Definition exchange (a : address) (message : Message) : M dict :=
  fun st =>
    match net E (sent (world st)) a message with
    | inl e => (Raise e, logged a message st)
    | inr resp => (Ret resp, logged a message st)
    end.

(** [random.choice(seq)]: [IndexError] on an empty sequence, [TypeError] on
    an object without length; one number is drawn otherwise. *)
Definition random_choice (seq : value) : M value :=
  fun st =>
    let w := world st in
    let items :=
      match seq with
      | VList l => inr l
      | VStr s => inr (chars s)
      | VNone | VBool _ | VInt _ => inl TypeError
      end in
    match items with
    | inl e => (Raise e, st)
    | inr l =>
        match l !! (rand E (draws w) mod length l)%nat with
        | Some v =>
            (Ret v, {| self := self st;
                       world := {| sent := sent w;
                                   draws := S (draws w);
                                   ticks := ticks w |} |})
        | None => (Raise IndexError, st)
        end
    end.

(** [datetime.datetime.now()] *)
Definition datetime_now (w : World) : Z * World :=
  (clock E (ticks w),
   {| sent := sent w; draws := draws w; ticks := S (ticks w) |}).

End Primitives.

(** ** class AbstractClient *)

Module AbstractClient.
Section Methods.

Variable E : Env.

(** The source calls itself once for each redirect, and nothing in it
    bounds the depth: what ends a long chain is the recursion limit of the
    interpreter (1000 frames unless the application has called
    [sys.setrecursionlimit]).  [frames] is the room on the stack at the
    call: the number of nested activations of [_request] that still fit.
    An activation that fits makes its exchange; the call that finds no room
    raises [RecursionError] and exchanges nothing.  The methods that make
    requests take the same argument and pass it on. *)
Fixpoint _request (frames : nat) (message : Message) : M dict :=
  match frames with
  | O => raise RecursionError
  | S frames' =>
      let! a := attr_server_address in
      let! resp := exchange E a message in
      if is_redirect resp then
        let! leader := getitem resp "leader" in
        let! t := lift (tuple leader) in
        assign_server_address t >>
        _request frames' message
      else ret resp
  end.

Definition _get_state (frames : nat) : M dict :=
  let! d := gets data in
  let! cluster := getitem d "cluster" in
  let! member := random_choice E cluster in
  let! t := lift (tuple member) in
  assign_server_address t >>
  _request frames Get.

Definition _append_log (frames : nat) (payload : Payload) : M dict :=
  _request frames (Append payload).

Definition diagnostic (frames : nat) : M dict :=
  _request frames Diagnostic.

Definition config_cluster (frames : nat) (action addr port : value) : M dict :=
  _request frames (Config action addr port).

End Methods.
End AbstractClient.

(** ** The refresh policies *)

Module RefreshPolicyAlways.

Definition can_update : bool := true.

End RefreshPolicyAlways.

Module RefreshPolicyLock.

Definition __init__ (status : bool) : RefreshPolicy := PolicyLock status.

Definition can_update (lock : bool) : bool := lock.

End RefreshPolicyLock.

Module RefreshPolicyCount.

Definition __init__ (maximum : Z) : RefreshPolicyCount :=
  {| counter := 0; maximum := maximum |}.

Definition can_update (p : RefreshPolicyCount) : bool * RefreshPolicyCount :=
  let c := (counter p + 1)%Z in
  if (c =? maximum p)%Z
  then (true, {| counter := 0; maximum := maximum p |})
  else (false, {| counter := c; maximum := maximum p |}).

End RefreshPolicyCount.

Module RefreshPolicyTime.
Section Methods.

Variable E : Env.

(** [self.delta = delta()]: the argument is called. *)
Definition __init__ (delta : pyobj) : exn + RefreshPolicyTime :=
  match delta with
  | Callable result => inr {| delta := result; last_refresh := None |}
  | Timedelta _ => inl TypeError
  end.

(** [or] does not read the clock when [last_refresh] is [None]; comparing a
    [timedelta] with an object of another type raises [TypeError]. *)
Definition can_update (p : RefreshPolicyTime) (w : World)
  : res bool * RefreshPolicyTime * World :=
  match last_refresh p with
  | None =>
      let (now, w1) := datetime_now E w in
      (Ret true, {| delta := delta p; last_refresh := Some now |}, w1)
  | Some last =>
      let (now, w1) := datetime_now E w in
      match delta p with
      | Timedelta d =>
          if (d <? now - last)%Z then
            let (now', w2) := datetime_now E w1 in
            (Ret true, {| delta := delta p; last_refresh := Some now' |}, w2)
          else (Ret false, p, w1)
      | Callable _ => (Raise TypeError, p, w1)
      end
  end.

End Methods.
End RefreshPolicyTime.

(** [self.refresh_policy.can_update()], whichever the class of the policy. *)
Definition can_update (E : Env) : M bool :=
  fun st =>
    match refresh_policy (self st) with
    | PolicyAlways => (Ret RefreshPolicyAlways.can_update, st)
    | PolicyLock lock => (Ret (RefreshPolicyLock.can_update lock), st)
    | PolicyCount p =>
        let (b, p') := RefreshPolicyCount.can_update p in
        (Ret b, {| self := with_refresh_policy (PolicyCount p') (self st);
                   world := world st |})
    | PolicyTime p =>
        let '(r, p', w') := RefreshPolicyTime.can_update E p (world st) in
        (r, {| self := with_refresh_policy (PolicyTime p') (self st);
               world := w' |})
    end.

(** ** class DistributedDict *)

Module DistributedDict.
Section Methods.

Variable E : Env.

Definition refresh (frames : nat) (force : bool) : M unit :=
  let! go := (if force then ret true else can_update E) in
  if go then
    let! snapshot := AbstractClient._get_state E frames in
    modify (with_data snapshot)
  else ret tt.

(** The [for] loop of [_append_log] over the attempts that remain;
    [response] is the local variable, unbound before the first attempt. *)
Fixpoint attempts (n : nat) (attempt : M dict) (response : option dict)
  : M (option dict) :=
  match n with
  | O => ret response
  | S n' =>
      let! r := attempt in
      let! success := getitem r "success" in
      if truthy success then ret (Some r)
      else attempts n' attempt (Some r)
  end.

Definition _append_log (frames : nat) (payload : Payload) : M dict :=
  let! n := gets append_retry_attempts in
  let! response :=
    attempts (Z.to_nat n) (AbstractClient._append_log E frames payload) None in
  match response with
  | Some r => ret r
  | None => raise UnboundLocalError
  end.

Definition __keytransform__ (key : string) : string := key.

Definition __getitem__ (frames : nat) (key : string) : M value :=
  refresh frames false >>
  let! d := gets data in
  getitem d key.

Definition __setitem__ (frames : nat) (key : string) (val : value) : M unit :=
  _append_log frames (Change key val) >>
  ret tt.

Definition __delitem__ (frames : nat) (key : string) : M unit :=
  refresh frames true >>
  delitem_data (__keytransform__ key) >>
  _append_log frames (Delete key) >>
  ret tt.

(** The object as [__init__] has it when it calls [refresh]: [data] holds
    the seed member under ['cluster']. *)
Definition fresh (addr port : value) (append_retry_attempts : Z)
    (refresh_policy : RefreshPolicy) : Object :=
  {| server_address := None;
     data := <["cluster" := VList [VList [addr; port]]]> ∅;
     append_retry_attempts := append_retry_attempts;
     refresh_policy := refresh_policy |}.

Definition __init__ (frames : nat) (addr port : value)
    (append_retry_attempts : Z) (refresh_policy : RefreshPolicy)
    (w : World) : res Object * World :=
  let st := {| self := fresh addr port append_retry_attempts refresh_policy;
               world := w |} in
  match refresh frames true st with
  | (Ret _, st') => (Ret (self st'), world st')
  | (Raise e, st') => (Raise e, world st')
  end.

End Methods.
End DistributedDict.

(** ** The script: [if __name__ == '__main__'] *)

(** [sys.argv] holds the name of the program and its arguments, all
    strings; the client is built with the default retry count and the
    default policy. *)
Definition main (E : Env) (frames : nat) (argv : list string) (w : World)
  : res unit * World :=
  if (length argv =? 3)%nat then
    match DistributedDict.__init__ E frames (VStr "localhost") (VInt 5255) 3
            PolicyAlways w with
    | (Ret d, w1) =>
        let (r, st) :=
          DistributedDict.__setitem__ E frames (nth 1 argv "")
            (VStr (nth 2 argv "")) {| self := d; world := w1 |} in
        (r, world st)
    | (Raise e, w1) => (Raise e, w1)
    end
  else (Ret tt, w).

(** ** Successive calls of a count policy *)

(** The results of [n] successive calls of [can_update], oldest first, and
    the policy after them. *)
Fixpoint calls (n : nat) (p : RefreshPolicyCount)
  : list bool * RefreshPolicyCount :=
  match n with
  | O => ([], p)
  | S n' =>
      let (b, p1) := RefreshPolicyCount.can_update p in
      let (bs, p2) := calls n' p1 in
      (b :: bs, p2)
  end.

(** ** Chains of redirects *)

(** From the history [h], the member [a] and then the members [hops], one
    after the other, answer [message] with a redirect that names the next
    one, and the last of them answers with [final], which is no redirect. *)
Fixpoint follows (E : Env) (h : list (address * Message)) (a : address)
    (message : Message) (hops : list address) (final : dict) : Prop :=
  match hops with
  | [] => net E h a message = inr final /\ is_redirect final = false
  | b :: hops' =>
      exists (resp : dict) (leader : value),
        net E h a message = inr resp /\
        is_redirect resp = true /\
        resp !! "leader" = Some leader /\
        tuple leader = inr b /\
        follows E (h ++ [(a, message)]) b message hops' final
  end.

(** From the history [h], the member [a] and then the members [hops] but
    the last, one after the other, answer [message] with a redirect that
    names the next one. *)
Fixpoint redirected (E : Env) (h : list (address * Message)) (a : address)
    (message : Message) (hops : list address) : Prop :=
  match hops with
  | [] => True
  | b :: hops' =>
      exists (resp : dict) (leader : value),
        net E h a message = inr resp /\
        is_redirect resp = true /\
        resp !! "leader" = Some leader /\
        tuple leader = inr b /\
        redirected E (h ++ [(a, message)]) b message hops'
  end.

(** The members asked along such a chain: [a] and [hops], but the last. *)
Fixpoint asked (a : address) (hops : list address) : list address :=
  match hops with
  | [] => []
  | b :: hops' => a :: asked b hops'
  end.

(** The exchanges of a walk along [hops] that starts at [a]. *)
Definition walk (a : address) (message : Message) (hops : list address)
  : list (address * Message) :=
  (fun b => (b, message)) <$> (a :: hops).

(** What a call may change besides [server_address]: nothing of the
    instance, and of the world only the record of exchanges, which grows by
    exchanges that satisfy [P]. *)
Definition frame (P : address * Message -> Prop) (st st' : State) : Prop :=
  data (self st') = data (self st) /\
  append_retry_attempts (self st') = append_retry_attempts (self st) /\
  refresh_policy (self st') = refresh_policy (self st) /\
  draws (world st') = draws (world st) /\
  ticks (world st') = ticks (world st) /\
  exists l, sent (world st') = sent (world st) ++ l /\ Forall P l.

(** ** Vocabulary of the statements *)

(** [resp['success']] is there and true. *)
Definition succeeded (resp : dict) : bool :=
  match resp !! "success" with
  | Some v => truthy v
  | None => false
  end.

(** The outcome of a call whose value is dropped. *)
Definition void {A} (r : res A) : res unit :=
  match r with
  | Ret _ => Ret tt
  | Raise e => Raise e
  end.

(** The state once [k] more exchanges of [message] with [a] are on record. *)
Definition logged_n (k : nat) (a : address) (message : Message) (st : State)
  : State :=
  {| self := self st;
     world := {| sent := sent (world st) ++ repeat (a, message) k;
                 draws := draws (world st);
                 ticks := ticks (world st) |} |}.

(** The state once one more number is drawn. *)
Definition drawn (st : State) : State :=
  {| self := self st;
     world := {| sent := sent (world st);
                 draws := S (draws (world st));
                 ticks := ticks (world st) |} |}.

(** What a refresh that fails, and any fetch of the state, leaves alone: the
    mirror, the retry count, the policy and the clock. *)
Definition untouched (st st' : State) : Prop :=
  data (self st') = data (self st) /\
  append_retry_attempts (self st') = append_retry_attempts (self st) /\
  refresh_policy (self st') = refresh_policy (self st) /\
  ticks (world st') = ticks (world st).

(** ** Scenarios *)

(** Concrete clusters and clients, on which the statements below are run. *)

Definition member_a : address := [VStr "10.0.0.1"; VInt 5254].
Definition member_b : address := [VStr "10.0.0.2"; VInt 5255].

Definition host (a : address) : string :=
  match a with
  | VStr s :: _ => s
  | _ => ""
  end.

Definition redirect_to (a : address) : dict :=
  <["type" := VStr "redirect"]> (<["leader" := VList a]> ∅).

Definition world0 : World := {| sent := []; draws := 0; ticks := 0 |}.

(** A client that tracks [a], with mirror [d]. *)
Definition client (a : address) (d : dict) (n : Z) (p : RefreshPolicy) : State :=
  {| self := {| server_address := Some a;
                data := d;
                append_retry_attempts := n;
                refresh_policy := p |};
     world := world0 |}.

Definition cluster_ab : value := VList [VList member_a; VList member_b].

Definition snapshot_b : dict :=
  <["cluster" := cluster_ab]> (<["x" := VInt 1]> ∅).

(** Member a is a follower and names b as the leader; b answers. *)
Definition E_follower_leader : Env :=
  {| net := fun _ a _ =>
              if String.eqb (host a) "10.0.0.1"
              then inr (redirect_to member_b)
              else inr snapshot_b;
     rand := fun _ => 0;
     clock := fun _ => 0%Z |}.

(** Every member names a as the leader, a included. *)
Definition E_cycle : Env :=
  {| net := fun _ _ _ => inr (redirect_to member_a);
     rand := fun _ => 0;
     clock := fun _ => 0%Z |}.

Definition refused : dict := <["success" := VBool false]> ∅.
Definition accepted : dict := <["success" := VBool true]> ∅.

(** The leader answers every request with [success = False]. *)
Definition E_refuses : Env :=
  {| net := fun _ _ _ => inr refused;
     rand := fun _ => 0;
     clock := fun _ => 0%Z |}.

(** The leader answers every append with [success = True], and every read
    with [x = 1]. *)
Definition mirror_x : dict :=
  <["cluster" := VList [VList member_a]]> (<["x" := VInt 1]> ∅).

Definition E_accepts : Env :=
  {| net := fun _ _ m =>
              match m with
              | Get => inr mirror_x
              | _ => inr accepted
              end;
     rand := fun _ => 0;
     clock := fun _ => 0%Z |}.

(** A client whose lock is down, with [x = 1] in the mirror. *)
Definition st_locked : State := client member_a mirror_x 3 (PolicyLock false).

(** The cluster no longer holds [a], which the mirror of the client still
    does; appends are refused. *)
Definition snapshot_gone : dict := <["cluster" := VList [VList member_a]]> ∅.

Definition mirror_a : dict :=
  <["cluster" := VList [VList member_a]]> (<["a" := VInt 1]> ∅).

Definition E_key_gone : Env :=
  {| net := fun _ _ m =>
              match m with
              | Get => inr snapshot_gone
              | _ => inr refused
              end;
     rand := fun _ => 0;
     clock := fun _ => 0%Z |}.

Definition st_stale : State := client member_a mirror_a 3 (PolicyLock false).

(** The cluster holds [a = 1] and refuses every append. *)
Definition E_never_deletes : Env :=
  {| net := fun _ _ m =>
              match m with
              | Get => inr mirror_a
              | _ => inr refused
              end;
     rand := fun _ => 0;
     clock := fun _ => 0%Z |}.

(** A cluster of one member whose state machine is a dict: it applies every
    append it has received to that dict, accepts it, and answers [Get] with
    the dict. *)
Definition apply_payload (d : dict) (p : Payload) : dict :=
  match p with
  | Change k v => <[k := v]> d
  | Delete k => delete k d
  end.

Definition applied (h : list (address * Message)) : dict :=
  foldl (fun d x => match x.2 with
                    | Append p => apply_payload d p
                    | _ => d
                    end) snapshot_gone h.

Definition E_dict_machine : Env :=
  {| net := fun h _ m =>
              match m with
              | Get => inr (applied h)
              | _ => inr accepted
              end;
     rand := fun _ => 0;
     clock := fun _ => 0%Z |}.

(** A client of that cluster, then the same client after
    [d['cluster'] = 5], then after it has read [d['cluster']]. *)
Definition st_fresh : State := client member_a snapshot_gone 3 PolicyAlways.

Definition st_written : State :=
  (DistributedDict.__setitem__ E_dict_machine 1 "cluster" (VInt 5) st_fresh).2.

Definition st_read : State :=
  (DistributedDict.__getitem__ E_dict_machine 1 "cluster" st_written).2.

(** The leader refuses the first append and accepts the second. *)
Definition E_second_try : Env :=
  {| net := fun h _ _ => if (length h =? 1)%nat then inr accepted else inr refused;
     rand := fun _ => 0;
     clock := fun _ => 0%Z |}.

(** A clock read at 0 s, at 0.1 s, at 1.1 s and just after. *)
Definition E_clock : Env :=
  {| net := fun _ _ _ => inl OSError;
     rand := fun _ => 0;
     clock := fun i => nth i [0; 100000; 1100000; 1100001]%Z 2000000%Z |}.

(** Nobody listens. *)
Definition E_down : Env :=
  {| net := fun _ _ _ => inl OSError;
     rand := fun _ => 0;
     clock := fun _ => 0%Z |}.

(** The member answers with a redirect that names nobody. *)
Definition redirect_nowhere : dict := <["type" := VStr "redirect"]> ∅.

Definition E_bad_redirect : Env :=
  {| net := fun _ _ _ => inr redirect_nowhere;
     rand := fun _ => 0;
     clock := fun _ => 0%Z |}.

(** The member answers appends with an empty dict. *)
Definition E_no_success : Env :=
  {| net := fun _ _ _ => inr ∅;
     rand := fun _ => 0;
     clock := fun _ => 0%Z |}.

(** Member a is a follower and names b; b accepts. *)
Definition E_follower_accepts : Env :=
  {| net := fun _ a _ =>
              if String.eqb (host a) "10.0.0.1"
              then inr (redirect_to member_b)
              else inr accepted;
     rand := fun _ => 0;
     clock := fun _ => 0%Z |}.

(** A clock that advances by 0.7 s at each reading. *)
Definition E_steady_clock : Env :=
  {| net := fun _ _ _ => inl OSError;
     rand := fun _ => 0;
     clock := fun i => (700000 * Z.of_nat i)%Z |}.

(** A client that tracks b, with the two members in its mirror. *)
Definition st_tracks_b : State := client member_b snapshot_b 3 PolicyAlways.

(** A client with a count policy of period 2. *)
Definition st_counting : State :=
  client member_a mirror_x 3 (PolicyCount {| counter := 0; maximum := 2 |}).

(** * Properties *)

(** ** RefreshPolicyCount *)

Lemma can_update_step (p : RefreshPolicyCount) :
  RefreshPolicyCount.can_update p =
  if (counter p + 1 =? maximum p)%Z
  then (true, {| counter := 0; maximum := maximum p |})
  else (false, {| counter := counter p + 1; maximum := maximum p |}).
Proof. reflexivity. Qed.

(** From a counter [c] below a maximum [m >= 1], the [i]-th next call
    answers true exactly when [c + i + 1] is a multiple of [m]. *)
Lemma calls_periodic (m : Z) (n : nat) :
  (1 <= m)%Z ->
  forall c : Z, (0 <= c < m)%Z ->
  calls n {| counter := c; maximum := m |} =
  ((fun i : nat => ((c + Z.of_nat i + 1) mod m =? 0)%Z) <$> seq 0 n,
   {| counter := (c + Z.of_nat n) mod m; maximum := m |}).
Proof.
  intros Hm. induction n as [|n IH]; intros c Hc.
  - simpl. rewrite Z.add_0_r, Z.mod_small by lia. reflexivity.
  - cbn [calls]. rewrite can_update_step. cbn [counter maximum].
    destruct (Z.eqb_spec (c + 1) m) as [Heq|Hne].
    + rewrite (IH 0%Z) by lia. cbn [seq fmap list_fmap].
      f_equal.
      * f_equal.
        -- rewrite Z.add_0_r, Heq, Z.mod_same by lia. reflexivity.
        -- rewrite <- seq_shift, <- list_fmap_compose.
           apply list_fmap_ext. intros _ i _. cbn.
           replace (c + Z.of_nat (S i) + 1)%Z with (0 + Z.of_nat i + 1 + 1 * m)%Z by lia.
           rewrite Z.mod_add by lia. reflexivity.
      * f_equal.
        replace (c + Z.of_nat (S n))%Z with (0 + Z.of_nat n + 1 * m)%Z by lia.
        rewrite Z.mod_add by lia. reflexivity.
    + rewrite (IH (c + 1)%Z) by lia. cbn [seq fmap list_fmap].
      f_equal.
      * f_equal.
        -- rewrite Z.add_0_r, Z.mod_small by lia.
           symmetry. apply Z.eqb_neq. lia.
        -- rewrite <- seq_shift, <- list_fmap_compose.
           apply list_fmap_ext. intros _ i _. cbn.
           replace (c + Z.of_nat (S i) + 1)%Z with (c + 1 + Z.of_nat i + 1)%Z by lia.
           reflexivity.
      * f_equal. f_equal. lia.
Qed.

(** C7: with [maximum = 3] the counter starts at 0; a call sets the counter
    to 0 and answers true when the incremented counter equals the maximum,
    and keeps the incremented counter and answers false otherwise; so the
    answers of any number of successive calls are false, false, true,
    false, false, true, ...: the [i]-th call (from 1) answers true exactly
    when [i] is a multiple of 3. *)
Theorem count_gated_period_3 :
  counter (RefreshPolicyCount.__init__ 3) = 0%Z /\
  (forall p : RefreshPolicyCount,
     RefreshPolicyCount.can_update p =
     if (counter p + 1 =? maximum p)%Z
     then (true, {| counter := 0; maximum := maximum p |})
     else (false, {| counter := counter p + 1; maximum := maximum p |})) /\
  (forall n : nat,
     calls n (RefreshPolicyCount.__init__ 3) =
     ((fun i : nat => (S i mod 3 =? 0)%nat) <$> seq 0 n,
      {| counter := Z.of_nat (n mod 3); maximum := 3 |})) /\
  (calls 6 (RefreshPolicyCount.__init__ 3)).1 =
    [false; false; true; false; false; true].
Proof.
  split; [reflexivity|]. split; [exact can_update_step|]. split; [|reflexivity].
  intros n. unfold RefreshPolicyCount.__init__.
  rewrite (calls_periodic 3 n) by lia.
  f_equal.
  - apply list_fmap_ext. intros _ i _. cbn beta.
    replace (0 + Z.of_nat i + 1)%Z with (Z.of_nat (S i)) by lia.
    change 3%Z with (Z.of_nat 3).
    rewrite <- Nat2Z.inj_mod.
    destruct (Nat.eqb_spec (S i mod 3) 0) as [->|Hne]; [reflexivity|].
    apply Z.eqb_neq. lia.
  - f_equal. rewrite Z.add_0_l. change 3%Z with (Z.of_nat 3).
    rewrite <- Nat2Z.inj_mod. reflexivity.
Qed.

(** With a maximum below 1 the incremented counter, which is at least 1,
    never equals it. *)
Lemma calls_never (m : Z) (n : nat) :
  (m < 1)%Z ->
  forall c : Z, (0 <= c)%Z ->
  calls n {| counter := c; maximum := m |} =
  (repeat false n, {| counter := c + Z.of_nat n; maximum := m |}).
Proof.
  intros Hm. induction n as [|n IH]; intros c Hc.
  - simpl. rewrite Z.add_0_r. reflexivity.
  - cbn [calls]. rewrite can_update_step. cbn [counter maximum].
    destruct (Z.eqb_spec (c + 1) m) as [Heq|_]; [lia|].
    rewrite IH by lia. cbn [repeat].
    replace (c + 1 + Z.of_nat n)%Z with (c + Z.of_nat (S n))%Z by lia.
    reflexivity.
Qed.

(** C5, as the code has it: the constructor checks nothing, so a maximum
    below 1 gives a policy as any other maximum does; no call of that
    policy ever answers true, and its counter grows by one at each call. *)
Theorem count_gated_nonpositive_maximum (maximum : Z) (n : nat) :
  (maximum < 1)%Z ->
  RefreshPolicyCount.__init__ maximum = {| counter := 0; maximum := maximum |} /\
  calls n (RefreshPolicyCount.__init__ maximum) =
  (repeat false n, {| counter := Z.of_nat n; maximum := maximum |}).
Proof.
  intros Hm. split; [reflexivity|].
  unfold RefreshPolicyCount.__init__. rewrite calls_never by lia.
  reflexivity.
Qed.

Lemma count_gated_nonpositive_maximum_witness :
  (-2 < 1)%Z /\
  RefreshPolicyCount.__init__ (-2) = {| counter := 0; maximum := -2 |} /\
  calls 4 (RefreshPolicyCount.__init__ (-2)) =
  (repeat false 4, {| counter := Z.of_nat 4; maximum := -2 |}).
Proof.
  split; [lia|]. apply (count_gated_nonpositive_maximum (-2) 4). lia.
Defined.

(** C5 fails on the code: constructing the policy with maximum 0 returns a
    policy, which is then called and answers, and a client is built with
    it. *)
Lemma count_gated_zero_is_created :
  RefreshPolicyCount.__init__ 0 = {| counter := 0; maximum := 0 |} /\
  RefreshPolicyCount.can_update (RefreshPolicyCount.__init__ 0) =
  (false, {| counter := 1; maximum := 0 |}) /\
  (DistributedDict.__init__ E_dict_machine 1 (VStr "10.0.0.1") (VInt 5254) 3
     (PolicyCount (RefreshPolicyCount.__init__ 0)) world0).1 =
  Ret {| server_address := Some member_a;
         data := snapshot_gone;
         append_retry_attempts := 3;
         refresh_policy := PolicyCount {| counter := 0; maximum := 0 |} |}.
Proof. repeat split; reflexivity. Qed.

(** ** RefreshPolicyTime *)

(** C4 at its failing input: a policy cannot be constructed from an
    interval, since [__init__] calls its argument and a [timedelta] is not
    callable; the default argument fails in the same way. *)
Theorem time_gated_init_interval (us : Z) :
  RefreshPolicyTime.__init__ (Timedelta us) = inl TypeError.
Proof. reflexivity. Qed.

(** What [can_update] does on a policy that holds an interval (built from a
    callable that returns one). *)
Lemma time_gated_init_callable (us : Z) :
  RefreshPolicyTime.__init__ (Callable (Timedelta us)) =
  inr {| delta := Timedelta us; last_refresh := None |}.
Proof. reflexivity. Qed.

Lemma time_gated_first (E : Env) (d : pyobj) (w : World) :
  RefreshPolicyTime.can_update E {| delta := d; last_refresh := None |} w =
  (Ret true,
   {| delta := d; last_refresh := Some (clock E (ticks w)) |},
   {| sent := sent w; draws := draws w; ticks := S (ticks w) |}).
Proof. reflexivity. Qed.

Lemma time_gated_within (E : Env) (us last : Z) (w : World) :
  (clock E (ticks w) - last <= us)%Z ->
  RefreshPolicyTime.can_update E
    {| delta := Timedelta us; last_refresh := Some last |} w =
  (Ret false,
   {| delta := Timedelta us; last_refresh := Some last |},
   {| sent := sent w; draws := draws w; ticks := S (ticks w) |}).
Proof.
  intros H. unfold RefreshPolicyTime.can_update, datetime_now.
  cbn [last_refresh delta].
  destruct (Z.ltb_spec us (clock E (ticks w) - last)); [lia|reflexivity].
Qed.

Lemma time_gated_after (E : Env) (us last : Z) (w : World) :
  (us < clock E (ticks w) - last)%Z ->
  RefreshPolicyTime.can_update E
    {| delta := Timedelta us; last_refresh := Some last |} w =
  (Ret true,
   {| delta := Timedelta us; last_refresh := Some (clock E (S (ticks w))) |},
   {| sent := sent w; draws := draws w; ticks := S (S (ticks w)) |}).
Proof.
  intros H. unfold RefreshPolicyTime.can_update, datetime_now.
  cbn [last_refresh delta].
  destruct (Z.ltb_spec us (clock E (ticks w) - last)); [reflexivity|lia].
Qed.

(** An interval of one second, calls at 0 s, 0.1 s and 1.1 s: true, false,
    true, and the baseline after the last call is the time read then. *)
Example time_gated_run :
  let p0 := {| delta := Timedelta 1000000; last_refresh := None |} in
  let '(r1, p1, w1) := RefreshPolicyTime.can_update E_clock p0 world0 in
  let '(r2, p2, w2) := RefreshPolicyTime.can_update E_clock p1 w1 in
  let '(r3, p3, w3) := RefreshPolicyTime.can_update E_clock p2 w2 in
  RefreshPolicyTime.__init__ (Callable (Timedelta 1000000)) = inr p0 /\
  [r1; r2; r3] = [Ret true; Ret false; Ret true] /\
  last_refresh p1 = Some 0%Z /\
  last_refresh p2 = Some 0%Z /\
  last_refresh p3 = Some 1100001%Z.
Proof. repeat split; reflexivity. Qed.

(** ** AbstractClient._request *)

Section Request.

Variable E : Env.

Lemma frame_refl P st : frame P st st.
Proof.
  unfold frame. repeat split; try reflexivity.
  exists []. rewrite app_nil_r. split; [reflexivity|constructor].
Qed.

Lemma frame_trans P st1 st2 st3 :
  frame P st1 st2 -> frame P st2 st3 -> frame P st1 st3.
Proof.
  intros (Hd & Ha & Hp & Hr & Ht & l & Hl & HP)
         (Hd' & Ha' & Hp' & Hr' & Ht' & l' & Hl' & HP').
  unfold frame. repeat split; try congruence.
  exists (l ++ l'). split.
  - rewrite Hl', Hl, app_assoc. reflexivity.
  - apply Forall_app. split; assumption.
Qed.

Lemma frame_logged (P : address * Message -> Prop) a message st :
  P (a, message) -> frame P st (logged a message st).
Proof.
  intros HP. unfold frame. repeat split; try reflexivity.
  exists [(a, message)]. split; [reflexivity|]. repeat constructor. exact HP.
Qed.

Lemma frame_moved P a st : frame P st (moved a st).
Proof.
  unfold frame. repeat split; try reflexivity.
  exists []. cbn. rewrite app_nil_r. split; [reflexivity|constructor].
Qed.

(** One step of [_request], when the member answers without a redirect. *)
Lemma request_answer frames message st a resp :
  server_address (self st) = Some a ->
  net E (sent (world st)) a message = inr resp ->
  is_redirect resp = false ->
  AbstractClient._request E (S frames) message st = (Ret resp, logged a message st).
Proof.
  intros Ha Hn Hr. cbn [AbstractClient._request].
  unfold bind at 1. unfold attr_server_address. rewrite Ha.
  unfold bind at 1. unfold exchange. rewrite Hn, Hr. reflexivity.
Qed.

(** One step of [_request], when the member answers with a redirect. *)
Lemma request_redirect frames message st a resp leader b :
  server_address (self st) = Some a ->
  net E (sent (world st)) a message = inr resp ->
  is_redirect resp = true ->
  resp !! "leader" = Some leader ->
  tuple leader = inr b ->
  AbstractClient._request E (S frames) message st =
  AbstractClient._request E frames message (moved b (logged a message st)).
Proof.
  intros Ha Hn Hr Hl Ht. cbn [AbstractClient._request].
  unfold bind at 1. unfold attr_server_address. rewrite Ha.
  unfold bind at 1. unfold exchange. rewrite Hn, Hr.
  unfold bind at 1. unfold getitem. rewrite Hl. unfold ret at 1.
  unfold bind at 1. rewrite Ht. unfold lift, ret at 1.
  unfold bind at 1. unfold assign_server_address. reflexivity.
Qed.

(** [_request] touches nothing but the tracked address and the record of
    exchanges, and every exchange carries the message it was given. *)
Lemma request_frame frames message st :
  frame (fun x => x.2 = message) st (AbstractClient._request E frames message st).2.
Proof.
  revert st. induction frames as [|frames IH]; intros st.
  - apply frame_refl.
  - cbn [AbstractClient._request].
    unfold bind at 1. unfold attr_server_address.
    destruct (server_address (self st)) as [a|]; [|apply frame_refl].
    unfold bind at 1. unfold exchange.
    destruct (net E (sent (world st)) a message) as [e|resp];
      [apply frame_logged; reflexivity|].
    destruct (is_redirect resp); [|apply frame_logged; reflexivity].
    unfold bind at 1. unfold getitem.
    destruct (resp !! "leader") as [leader|];
      [|apply frame_logged; reflexivity].
    unfold ret at 1. unfold bind at 1.
    destruct (tuple leader) as [e|b]; [apply frame_logged; reflexivity|].
    unfold lift, ret at 1. unfold bind at 1. unfold assign_server_address.
    eapply frame_trans; [|apply IH].
    eapply frame_trans; [apply frame_logged; reflexivity|apply frame_moved].
Qed.

Lemma last_default (c : address) (t : list address) (a b : address) :
  List.last (c :: t) a = List.last (c :: t) b.
Proof.
  revert c. induction t as [|c' t IH]; intros c; [reflexivity|].
  change (List.last (c' :: t) a = List.last (c' :: t) b). apply IH.
Qed.

Lemma last_hops (hops : list address) (a b : address) :
  List.last hops b = List.last (b :: hops) a.
Proof.
  destruct hops as [|c t]; [reflexivity|].
  change (List.last (c :: t) b = List.last (c :: t) a). apply last_default.
Qed.

(** The state after a walk from [a] along [hops]. *)
Lemma request_chain message hops : forall final st a frames,
  server_address (self st) = Some a ->
  follows E (sent (world st)) a message hops final ->
  length hops < frames ->
  AbstractClient._request E frames message st =
  (Ret final,
   {| self := with_server_address (List.last hops a) (self st);
      world := {| sent := sent (world st) ++ walk a message hops;
                  draws := draws (world st);
                  ticks := ticks (world st) |} |}).
Proof.
  induction hops as [|b hops IH]; intros final st a frames Ha Hf Hlt.
  - destruct frames as [|frames]; [cbn in Hlt; lia|].
    destruct Hf as [Hn Hr].
    rewrite (request_answer frames message st a final Ha Hn Hr).
    f_equal. unfold logged, walk. cbn.
    destruct st as [o w]. cbn in *. f_equal.
    destruct o; cbn in *. subst. reflexivity.
  - destruct frames as [|frames]; [cbn in Hlt; lia|].
    destruct Hf as (resp & leader & Hn & Hr & Hl & Ht & Hf).
    rewrite (request_redirect frames message st a resp leader b Ha Hn Hr Hl Ht).
    rewrite (IH final (moved b (logged a message st)) b frames);
      [|reflexivity|exact Hf|cbn in Hlt; lia].
    f_equal. unfold moved, logged, walk. cbn.
    f_equal.
    + unfold with_server_address. cbn [self server_address data
        append_retry_attempts refresh_policy]. f_equal. f_equal.
      apply last_hops.
    + f_equal. rewrite <- app_assoc. reflexivity.
Qed.

End Request.

(** C6: the tracked member [A] answers with a redirect that names [B], and
    [B] answers the same message with [rB], which is no redirect.  Then the
    call returns [rB], the tracked address is [B] afterwards, and the
    message went out exactly twice: to [A], then once more to [B]. *)
Theorem redirect_convergence (E : Env) (frames : nat) (message : Message)
    (st : State) (A B : address) (rA rB : dict) (leader : value) :
  server_address (self st) = Some A ->
  net E (sent (world st)) A message = inr rA ->
  is_redirect rA = true ->
  rA !! "leader" = Some leader ->
  tuple leader = inr B ->
  net E (sent (world st) ++ [(A, message)]) B message = inr rB ->
  is_redirect rB = false ->
  AbstractClient._request E (S (S frames)) message st =
  (Ret rB,
   {| self := with_server_address B (self st);
      world := {| sent := sent (world st) ++ [(A, message); (B, message)];
                  draws := draws (world st);
                  ticks := ticks (world st) |} |}).
Proof.
  intros HA HnA HrA Hl Ht HnB HrB.
  apply (request_chain E message [B] rB st A (S (S frames)) HA).
  - cbn [follows]. exists rA, leader. repeat split; assumption.
  - cbn. lia.
Qed.

Lemma redirect_convergence_witness :
  AbstractClient._request E_follower_leader 2 Get
    (client member_a ∅ 3 PolicyAlways) =
  (Ret snapshot_b,
   {| self := with_server_address member_b (self (client member_a ∅ 3 PolicyAlways));
      world := {| sent := [(member_a, Get); (member_b, Get)];
                  draws := 0;
                  ticks := 0 |} |}).
Proof.
  apply (redirect_convergence E_follower_leader 0 Get
           (client member_a ∅ 3 PolicyAlways) member_a member_b
           (redirect_to member_b) snapshot_b (VList member_b));
    reflexivity.
Defined.

(** The state when the stack gives out on a chain of redirects: every
    member but the last named has been asked, and the last named is
    tracked. *)
Lemma request_exhausts (E : Env) (message : Message) (hops : list address) :
  forall (st : State) (a : address),
  server_address (self st) = Some a ->
  redirected E (sent (world st)) a message hops ->
  AbstractClient._request E (length hops) message st =
  (Raise RecursionError,
   {| self := with_server_address (List.last hops a) (self st);
      world := {| sent := sent (world st) ++
                          ((fun b => (b, message)) <$> asked a hops);
                  draws := draws (world st);
                  ticks := ticks (world st) |} |}).
Proof.
  induction hops as [|b hops IH]; intros st a Ha Hr.
  - cbn. unfold raise. f_equal. rewrite app_nil_r.
    destruct st as [o w]. cbn in *. f_equal.
    + destruct o; cbn in *. subst. reflexivity.
    + destruct w; reflexivity.
  - destruct Hr as (resp & leader & Hn & Hred & Hl & Ht & Hr).
    cbn [length].
    rewrite (request_redirect E (length hops) message st a resp leader b
               Ha Hn Hred Hl Ht).
    rewrite (IH (moved b (logged a message st)) b eq_refl Hr).
    f_equal. unfold moved, logged. cbn. f_equal.
    + unfold with_server_address. cbn [self server_address data
        append_retry_attempts refresh_policy]. f_equal. f_equal.
      apply last_hops.
    + f_equal. rewrite <- app_assoc. reflexivity.
Qed.

Lemma length_asked (a : address) (hops : list address) :
  length (asked a hops) = length hops.
Proof.
  revert a. induction hops as [|b hops IH]; intros a; [reflexivity|].
  cbn. rewrite IH. reflexivity.
Qed.

(** C1, as the code has it: redirects are followed with no bound of the
    client's own, one nested call for each, for as long as the stack of the
    interpreter has room.  When there is room for more nested calls than a
    chain of redirects is long, the call walks the whole chain, one
    exchange of the same message with each member, returns the answer of
    the last member and tracks that member afterwards.  When the chain of
    redirects is as long as the room, the call raises [RecursionError]
    after one exchange for each nested call that fitted, and tracks the
    member named last. *)
Theorem redirects_followed_to_the_end (E : Env) (message : Message)
    (hops : list address) (st : State) (a : address) (frames : nat) :
  server_address (self st) = Some a ->
  (forall final : dict,
     follows E (sent (world st)) a message hops final ->
     length hops < frames ->
     AbstractClient._request E frames message st =
     (Ret final,
      {| self := with_server_address (List.last hops a) (self st);
         world := {| sent := sent (world st) ++ walk a message hops;
                     draws := draws (world st);
                     ticks := ticks (world st) |} |}) /\
     length (walk a message hops) = S (length hops)) /\
  (redirected E (sent (world st)) a message hops ->
   length hops = frames ->
   AbstractClient._request E frames message st =
   (Raise RecursionError,
    {| self := with_server_address (List.last hops a) (self st);
       world := {| sent := sent (world st) ++
                           ((fun b => (b, message)) <$> asked a hops);
                   draws := draws (world st);
                   ticks := ticks (world st) |} |}) /\
   length (asked a hops) = frames).
Proof.
  intros Ha. split.
  - intros final Hf Hlt. split.
    + apply request_chain; assumption.
    + unfold walk. rewrite length_fmap. reflexivity.
  - intros Hr Hlen. subst frames. split.
    + apply request_exhausts; assumption.
    + apply length_asked.
Qed.

(** A follower that names the leader, with room for two nested calls: two
    exchanges and the answer of the leader.  A cycle, with room for three
    nested calls: three exchanges, then [RecursionError]. *)
Lemma redirects_followed_to_the_end_witness :
  (AbstractClient._request E_follower_leader 2 Get
     (client member_a ∅ 3 PolicyAlways) =
   (Ret snapshot_b,
    {| self := with_server_address member_b (self (client member_a ∅ 3 PolicyAlways));
       world := {| sent := [(member_a, Get); (member_b, Get)];
                   draws := 0;
                   ticks := 0 |} |}) /\
   length (walk member_a Get [member_b]) = 2) /\
  (AbstractClient._request E_cycle 3 Get
     (client member_a ∅ 3 PolicyAlways) =
   (Raise RecursionError,
    {| self := with_server_address member_a (self (client member_a ∅ 3 PolicyAlways));
       world := {| sent := [(member_a, Get); (member_a, Get); (member_a, Get)];
                   draws := 0;
                   ticks := 0 |} |}) /\
   length (asked member_a [member_a; member_a; member_a]) = 3).
Proof.
  split.
  - apply (proj1 (redirects_followed_to_the_end E_follower_leader Get
                    [member_b] (client member_a ∅ 3 PolicyAlways) member_a 2
                    eq_refl) snapshot_b).
    + cbn [follows]. exists (redirect_to member_b), (VList member_b).
      repeat split; reflexivity.
    + cbn. lia.
  - apply (proj2 (redirects_followed_to_the_end E_cycle Get
                    [member_a; member_a; member_a]
                    (client member_a ∅ 3 PolicyAlways) member_a 3 eq_refl)).
    + cbn [redirected].
      repeat (exists (redirect_to member_a), (VList member_a);
              repeat (split; [reflexivity|])).
      exact I.
    + reflexivity.
Defined.

(** On the cycle every answer is a redirect, so the call goes one frame
    deeper at each exchange and raises [RecursionError] when the room is
    used up, having made one exchange for each frame. *)
Lemma cycle_runs (frames : nat) : forall st : State,
  server_address (self st) = Some member_a ->
  (AbstractClient._request E_cycle frames Get st).1 = Raise RecursionError /\
  length (sent (world (AbstractClient._request E_cycle frames Get st).2)) =
  length (sent (world st)) + frames.
Proof.
  induction frames as [|frames IH]; intros st Ha.
  - cbn. split; [reflexivity|lia].
  - rewrite (request_redirect E_cycle frames Get st member_a
               (redirect_to member_a) (VList member_a) member_a Ha);
      try reflexivity.
    destruct (IH (moved member_a (logged member_a Get st)) eq_refl) as [H1 H2].
    split; [exact H1|]. rewrite H2. cbn. rewrite length_app. cbn. lia.
Qed.

(** C1 fails on the code: against a cluster whose members name each other
    as the leader, the request stops only when the stack of the interpreter
    is full, and what it raises then is [RecursionError].  With room for
    989 nested calls it has followed 989 redirects by then; and whatever
    the room, it has made as many exchanges as there was room for. *)
Lemma redirect_cycle_ends_in_recursion_error :
  (AbstractClient._request E_cycle 989 Get
     (client member_a ∅ 3 PolicyAlways)).1 = Raise RecursionError /\
  length (sent (world (AbstractClient._request E_cycle 989 Get
                         (client member_a ∅ 3 PolicyAlways)).2)) = 989 /\
  forall frames : nat,
    (AbstractClient._request E_cycle frames Get
       (client member_a ∅ 3 PolicyAlways)).1 = Raise RecursionError /\
    length (sent (world (AbstractClient._request E_cycle frames Get
                           (client member_a ∅ 3 PolicyAlways)).2)) = frames.
Proof.
  split; [|split].
  - apply (cycle_runs 989 (client member_a ∅ 3 PolicyAlways)). reflexivity.
  - apply (cycle_runs 989 (client member_a ∅ 3 PolicyAlways)). reflexivity.
  - intros frames.
    apply (cycle_runs frames (client member_a ∅ 3 PolicyAlways)). reflexivity.
Qed.

(** ** DistributedDict._append_log *)

Section WriteRetry.

Variable E : Env.

Lemma logged_n_S k a message st :
  logged_n k a message (logged a message st) = logged_n (S k) a message st.
Proof.
  unfold logged_n, logged. cbn. rewrite <- app_assoc. reflexivity.
Qed.

Lemma logged_n_1 a message st : logged a message st = logged_n 1 a message st.
Proof. reflexivity. Qed.

(** The loop, when the first [k0] answers are failures and answer [k0]
    either succeeds or is the last one allowed. *)
Lemma attempts_run frames payload a (k0 : nat) :
  forall (n : nat) (answers : nat -> dict) (st : State) (response : option dict),
  server_address (self st) = Some a ->
  S k0 <= n ->
  (forall j, j <= k0 ->
     net E (sent (world st) ++ repeat (a, Append payload) j) a (Append payload)
       = inr (answers j) /\
     is_redirect (answers j) = false /\
     is_Some (answers j !! "success")) ->
  (forall j, j < k0 -> succeeded (answers j) = false) ->
  succeeded (answers k0) = true \/ S k0 = n ->
  DistributedDict.attempts n (AbstractClient._append_log E (S frames) payload)
    response st =
  (Ret (Some (answers k0)), logged_n (S k0) a (Append payload) st).
Proof.
  induction k0 as [|k0 IH]; intros n answers st response Ha Hn Hans Hfail Hstop.
  - destruct n as [|n]; [lia|].
    destruct (Hans 0 (Nat.le_refl 0)) as (Hnet & Hred & [v Hv]).
    cbn [repeat] in Hnet. rewrite app_nil_r in Hnet.
    cbn [DistributedDict.attempts]. unfold bind at 1.
    unfold AbstractClient._append_log at 1.
    rewrite (request_answer E frames _ st a (answers 0) Ha Hnet Hred).
    unfold bind at 1. unfold getitem. rewrite Hv. unfold ret at 1.
    rewrite logged_n_1.
    destruct Hstop as [Hs|Hs].
    + unfold succeeded in Hs. rewrite Hv in Hs. rewrite Hs. reflexivity.
    + assert (n = 0) as -> by lia.
      destruct (truthy v); reflexivity.
  - destruct n as [|n]; [lia|].
    destruct (Hans 0 (Nat.le_0_l _)) as (Hnet & Hred & [v Hv]).
    cbn [repeat] in Hnet. rewrite app_nil_r in Hnet.
    cbn [DistributedDict.attempts]. unfold bind at 1.
    unfold AbstractClient._append_log at 1.
    rewrite (request_answer E frames _ st a (answers 0) Ha Hnet Hred).
    unfold bind at 1. unfold getitem. rewrite Hv. unfold ret at 1.
    pose proof (Hfail 0 (Nat.lt_0_succ _)) as Hf0.
    unfold succeeded in Hf0. rewrite Hv in Hf0. rewrite Hf0.
    rewrite (IH n (fun j => answers (S j)) (logged a (Append payload) st)
               (Some (answers 0))).
    + rewrite logged_n_S. reflexivity.
    + exact Ha.
    + lia.
    + intros j Hj. cbn [logged world sent]. rewrite <- app_assoc.
      apply (Hans (S j)). lia.
    + intros j Hj. apply (Hfail (S j)). lia.
    + destruct Hstop as [Hs|Hs]; [left; exact Hs|right; lia].
Qed.

(** Against a leader that answers every append with a result, the loop of
    at least one attempt always returns, with the answer of its last
    exchange. *)
Lemma attempts_total frames payload a (n : nat) :
  (forall h, exists r,
     net E h a (Append payload) = inr r /\
     is_redirect r = false /\
     is_Some (r !! "success")) ->
  forall (st : State) (response : option dict),
  server_address (self st) = Some a ->
  exists (k : nat) (r : dict),
    1 <= k <= S n /\
    DistributedDict.attempts (S n) (AbstractClient._append_log E (S frames) payload)
      response st =
    (Ret (Some r), logged_n k a (Append payload) st) /\
    net E (sent (world st) ++ repeat (a, Append payload) (k - 1)) a
      (Append payload) = inr r /\
    (succeeded r = true \/ k = S n).
Proof.
  intros Hnet. induction n as [|n IH]; intros st response Ha.
  - destruct (Hnet (sent (world st))) as (r & Hr & Hred & [v Hv]).
    exists 1, r. split; [lia|]. split; [|split].
    + cbn [DistributedDict.attempts]. unfold bind at 1.
      unfold AbstractClient._append_log at 1.
      rewrite (request_answer E frames _ st a r Ha Hr Hred).
      unfold bind at 1. unfold getitem. rewrite Hv. unfold ret at 1.
      rewrite logged_n_1. destruct (truthy v); reflexivity.
    + cbn [Nat.sub repeat]. rewrite app_nil_r. exact Hr.
    + right. reflexivity.
  - destruct (Hnet (sent (world st))) as (r & Hr & Hred & [v Hv]).
    destruct (truthy v) eqn:Htv.
    + exists 1, r. split; [lia|]. split; [|split].
      * cbn [DistributedDict.attempts]. unfold bind at 1.
        unfold AbstractClient._append_log at 1.
        rewrite (request_answer E frames _ st a r Ha Hr Hred).
        unfold bind at 1. unfold getitem. rewrite Hv. unfold ret at 1.
        rewrite Htv, logged_n_1. reflexivity.
      * cbn [Nat.sub repeat]. rewrite app_nil_r. exact Hr.
      * left. unfold succeeded. rewrite Hv. exact Htv.
    + destruct (IH (logged a (Append payload) st) (Some r) Ha)
        as (k & r' & Hk & Hrun & Hlast & Hstop).
      exists (S k), r'. split; [lia|]. split; [|split].
      * remember (S n) as m.
        cbn [DistributedDict.attempts]. unfold bind at 1.
        unfold AbstractClient._append_log at 1.
        rewrite (request_answer E frames _ st a r Ha Hr Hred).
        unfold bind at 1. unfold getitem. rewrite Hv. unfold ret at 1.
        rewrite Htv. subst m. rewrite Hrun, logged_n_S. reflexivity.
      * cbn [logged world sent] in Hlast. rewrite <- app_assoc in Hlast.
        destruct k as [|k]; [lia|].
        cbn [Nat.sub] in Hlast |- *. rewrite Nat.sub_0_r in *.
        exact Hlast.
      * destruct Hstop as [Hs|Hs]; [left; exact Hs|right; lia].
Qed.

(** The loop changes neither the instance nor the clock, and exchanges
    nothing but the append message. *)
Lemma attempts_frame frames payload (n : nat) : forall response st,
  frame (fun x => x.2 = Append payload) st
    (DistributedDict.attempts n (AbstractClient._append_log E frames payload)
       response st).2.
Proof.
  induction n as [|n IH]; intros response st; [apply frame_refl|].
  cbn [DistributedDict.attempts]. unfold bind at 1.
  pose proof (request_frame E frames (Append payload) st) as Hf.
  unfold AbstractClient._append_log at 1.
  destruct (AbstractClient._request E frames (Append payload) st) as [[r|e] st1];
    cbn [snd] in Hf |- *; try exact Hf.
  unfold bind at 1. unfold getitem.
  destruct (r !! "success") as [v|]; [|exact Hf].
  unfold ret at 1. destruct (truthy v); [exact Hf|].
  eapply frame_trans; [exact Hf|apply IH].
Qed.

Lemma append_log_frame frames payload st :
  frame (fun x => x.2 = Append payload) st
    (DistributedDict._append_log E frames payload st).2.
Proof.
  unfold DistributedDict._append_log. unfold bind at 1. unfold gets.
  unfold bind at 1.
  pose proof (attempts_frame frames payload
                (Z.to_nat (append_retry_attempts (self st))) None st) as Hf.
  destruct (DistributedDict.attempts _ _ None st) as [[[r|]|e] st1];
    exact Hf.
Qed.

End WriteRetry.

(** C2: with [maxAttempts >= 1], let the leader answer the append with
    results that carry [success], the first [k - 1] of them failures, and
    let answer [k] succeed or be the last one allowed ([k = maxAttempts]).
    Then [_append_log] makes exactly [k] exchanges, all of the append
    message, and returns answer [k], the last one received, without
    raising, whether that answer succeeded or not. *)
Theorem write_retry_bounded (E : Env) (frames : nat) (payload : Payload)
    (st : State) (a : address) (maxAttempts : Z) (k : nat)
    (answers : nat -> dict) :
  (1 <= maxAttempts)%Z ->
  append_retry_attempts (self st) = maxAttempts ->
  server_address (self st) = Some a ->
  1 <= k <= Z.to_nat maxAttempts ->
  (forall j, j < k ->
     net E (sent (world st) ++ repeat (a, Append payload) j) a (Append payload)
       = inr (answers j) /\
     is_redirect (answers j) = false /\
     is_Some (answers j !! "success")) ->
  (forall j, S j < k -> succeeded (answers j) = false) ->
  succeeded (answers (k - 1)) = true \/ k = Z.to_nat maxAttempts ->
  DistributedDict._append_log E (S frames) payload st =
  (Ret (answers (k - 1)), logged_n k a (Append payload) st).
Proof.
  intros Hmax Hn Ha Hk Hans Hfail Hstop.
  destruct k as [|k0]; [lia|].
  replace (S k0 - 1) with k0 in * by lia.
  unfold DistributedDict._append_log. unfold bind at 1. unfold gets.
  unfold bind at 1. rewrite Hn.
  rewrite (attempts_run E frames payload a k0 (Z.to_nat maxAttempts) answers st None).
  - reflexivity.
  - exact Ha.
  - lia.
  - intros j Hj. apply Hans. lia.
  - intros j Hj. apply Hfail. lia.
  - exact Hstop.
Qed.

(** Three attempts against a leader that always refuses: three exchanges,
    and the result returned has [success = False]. *)
Lemma write_retry_bounded_witness :
  DistributedDict._append_log E_refuses 1 (Change "x" (VInt 5))
    (client member_a ∅ 3 PolicyAlways) =
  (Ret refused,
   logged_n 3 member_a (Append (Change "x" (VInt 5)))
     (client member_a ∅ 3 PolicyAlways)) /\
  refused !! "success" = Some (VBool false) /\
  length (sent (world (logged_n 3 member_a (Append (Change "x" (VInt 5)))
                         (client member_a ∅ 3 PolicyAlways)))) = 3.
Proof.
  split; [|split; reflexivity].
  apply (write_retry_bounded E_refuses 0 (Change "x" (VInt 5))
           (client member_a ∅ 3 PolicyAlways) member_a 3 3 (fun _ => refused)).
  - lia.
  - reflexivity.
  - reflexivity.
  - cbn. lia.
  - intros j _. repeat split. exists (VBool false). reflexivity.
  - intros j _. reflexivity.
  - right. reflexivity.
Defined.

(** Against a leader that answers every append with a result, the write
    path returns for every [maxAttempts >= 1]: it never raises and never
    makes more than [maxAttempts] exchanges. *)
Lemma write_retry_returns (E : Env) (frames : nat) (payload : Payload)
    (st : State) (a : address) :
  (1 <= append_retry_attempts (self st))%Z ->
  server_address (self st) = Some a ->
  (forall h, exists r,
     net E h a (Append payload) = inr r /\
     is_redirect r = false /\
     is_Some (r !! "success")) ->
  exists (k : nat) (r : dict),
    1 <= k <= Z.to_nat (append_retry_attempts (self st)) /\
    DistributedDict._append_log E (S frames) payload st =
    (Ret r, logged_n k a (Append payload) st) /\
    net E (sent (world st) ++ repeat (a, Append payload) (k - 1)) a
      (Append payload) = inr r /\
    (succeeded r = true \/ k = Z.to_nat (append_retry_attempts (self st))).
Proof.
  intros Hn Ha Hnet.
  destruct (Z.to_nat (append_retry_attempts (self st))) as [|n] eqn:Hk; [lia|].
  destruct (attempts_total E frames payload a n Hnet st None Ha)
    as (k & r & Hkn & Hrun & Hlast & Hstop).
  exists k, r. split; [exact Hkn|]. split; [|split; assumption].
  unfold DistributedDict._append_log. unfold bind at 1. unfold gets.
  unfold bind at 1. rewrite Hk, Hrun. reflexivity.
Qed.

(** Refused once, accepted at the second attempt: two exchanges, and the
    accepted result is returned though three attempts were allowed. *)
Example write_retry_stops_at_success :
  DistributedDict._append_log E_second_try 1 (Change "x" (VInt 5))
    (client member_a ∅ 3 PolicyAlways) =
  (Ret accepted,
   logged_n 2 member_a (Append (Change "x" (VInt 5)))
     (client member_a ∅ 3 PolicyAlways)).
Proof. reflexivity. Qed.

(** With no attempt allowed the loop body never runs and [return response]
    finds the variable unbound. *)
Example write_retry_zero_attempts :
  DistributedDict._append_log E_refuses 1 (Change "x" (VInt 5))
    (client member_a ∅ 0 PolicyAlways) =
  (Raise UnboundLocalError, client member_a ∅ 0 PolicyAlways).
Proof. reflexivity. Qed.

(** ** DistributedDict: the facade *)

Section Facade.

Variable E : Env.

(** Asking the policy leaves the mirror, the tracked address, the retry
    count and the record of exchanges as they are. *)
Lemma can_update_frame st :
  data (self (can_update E st).2) = data (self st) /\
  server_address (self (can_update E st).2) = server_address (self st) /\
  append_retry_attempts (self (can_update E st).2) =
    append_retry_attempts (self st) /\
  sent (world (can_update E st).2) = sent (world st).
Proof.
  unfold can_update.
  destruct (refresh_policy (self st)) as [|lock|p|p]; cbn;
    try (repeat split; reflexivity).
  - destruct (RefreshPolicyCount.can_update p) as [b p']. cbn.
    repeat split; reflexivity.
  - unfold RefreshPolicyTime.can_update, datetime_now.
    destruct (last_refresh p) as [last|]; cbn; [|repeat split; reflexivity].
    destruct (delta p) as [d|f]; cbn; [|repeat split; reflexivity].
    destruct (d <? clock E (ticks (world st)) - last)%Z; cbn;
      repeat split; reflexivity.
Qed.

(** A read that the policy does not let refresh is a lookup in the mirror. *)
Lemma getitem_no_refresh frames key st st' :
  can_update E st = (Ret false, st') ->
  DistributedDict.__getitem__ E frames key st =
  (match data (self st) !! key with
   | Some v => Ret v
   | None => Raise KeyError
   end, st') /\
  sent (world st') = sent (world st).
Proof.
  intros Hc. pose proof (can_update_frame st) as (Hd & _ & _ & Hs).
  rewrite Hc in Hd, Hs. cbn [snd] in Hd, Hs. split; [|exact Hs].
  unfold DistributedDict.__getitem__, DistributedDict.refresh.
  unfold bind at 1. unfold bind at 1. rewrite Hc.
  unfold ret at 1. unfold bind at 1. unfold gets. rewrite Hd.
  unfold getitem. destruct (data (self st) !! key); reflexivity.
Qed.

(** The first connection of a request goes to the tracked member. *)
Lemma request_first frames message st a :
  server_address (self st) = Some a ->
  exists l,
    sent (world (AbstractClient._request E (S frames) message st).2) =
    sent (world st) ++ (a, message) :: l.
Proof.
  intros Ha. cbn [AbstractClient._request].
  unfold bind at 1. unfold attr_server_address. rewrite Ha.
  unfold bind at 1. unfold exchange.
  destruct (net E (sent (world st)) a message) as [e|resp];
    [exists []; reflexivity|].
  destruct (is_redirect resp); [|exists []; reflexivity].
  unfold bind at 1. unfold getitem.
  destruct (resp !! "leader") as [leader|]; [|exists []; reflexivity].
  unfold ret at 1. unfold bind at 1.
  destruct (tuple leader) as [e|b]; [exists []; reflexivity|].
  unfold lift, ret at 1. unfold bind at 1. unfold assign_server_address.
  destruct (request_frame E frames message (moved b (logged a message st)))
    as (_ & _ & _ & _ & _ & l & Hl & _).
  exists l. rewrite Hl. cbn. rewrite <- app_assoc. reflexivity.
Qed.

(** With at least one attempt allowed, the write path sends. *)
Lemma append_log_first frames payload st a :
  server_address (self st) = Some a ->
  (1 <= append_retry_attempts (self st))%Z ->
  exists l,
    sent (world (DistributedDict._append_log E (S frames) payload st).2) =
    sent (world st) ++ (a, Append payload) :: l.
Proof.
  intros Ha Hn.
  unfold DistributedDict._append_log. unfold bind at 1. unfold gets.
  unfold bind at 1.
  destruct (Z.to_nat (append_retry_attempts (self st))) as [|n] eqn:Hk; [lia|].
  assert (exists l,
    sent (world (DistributedDict.attempts (S n)
       (AbstractClient._append_log E (S frames) payload) None st).2) =
    sent (world st) ++ (a, Append payload) :: l) as [l Hl].
  { cbn [DistributedDict.attempts]. unfold bind at 1.
    unfold AbstractClient._append_log at 1.
    destruct (request_first frames (Append payload) st a Ha) as [l Hl].
    destruct (AbstractClient._request E (S frames) (Append payload) st)
      as [[r|e] st1]; cbn [snd] in Hl |- *; try (exists l; exact Hl).
    unfold bind at 1. unfold getitem.
    destruct (r !! "success") as [v|]; [|exists l; exact Hl].
    unfold ret at 1. destruct (truthy v); [exists l; exact Hl|].
    destruct (attempts_frame E (S frames) payload n (Some r) st1)
      as (_ & _ & _ & _ & _ & l' & Hl' & _).
    exists (l ++ l'). rewrite Hl', Hl, <- app_assoc. reflexivity. }
  destruct (DistributedDict.attempts (S n) _ None st) as [[[r|]|e] st1];
    exists l; exact Hl.
Qed.

Lemma setitem_frame frames key val st :
  frame (fun x => x.2 = Append (Change key val)) st
    (DistributedDict.__setitem__ E frames key val st).2.
Proof.
  unfold DistributedDict.__setitem__. unfold bind at 1.
  pose proof (append_log_frame E frames (Change key val) st) as Hf.
  destruct (DistributedDict._append_log E frames (Change key val) st)
    as [[r|e] st1]; exact Hf.
Qed.

End Facade.

(** C9: whatever comes of it, [set(key, value)] leaves the local mirror as
    it was; what it exchanges is the append of the change and nothing else,
    first with the tracked member as soon as one attempt is allowed and the
    stack has room for one request; a read that follows, under a policy that answers false,
    makes no exchange and gives the value the mirror held before the write,
    or [KeyError] when the mirror held none. *)
Theorem set_leaves_mirror (E : Env) (frames : nat) (key : string) (val : value)
    (st : State) (r : res unit) (st' : State) :
  DistributedDict.__setitem__ E frames key val st = (r, st') ->
  data (self st') = data (self st) /\
  (exists l, sent (world st') = sent (world st) ++ l /\
             Forall (fun x => x.2 = Append (Change key val)) l /\
             forall a : address,
               server_address (self st) = Some a ->
               (1 <= append_retry_attempts (self st))%Z ->
               0 < frames ->
               head l = Some (a, Append (Change key val))) /\
  forall (frames' : nat) (key' : string) (st'' : State),
    can_update E st' = (Ret false, st'') ->
    DistributedDict.__getitem__ E frames' key' st' =
    (match data (self st) !! key' with
     | Some v => Ret v
     | None => Raise KeyError
     end, st'') /\
    sent (world st'') = sent (world st').
Proof.
  intros Hset.
  pose proof (setitem_frame E frames key val st) as (Hd & _ & _ & _ & _ & l & Hl & HP).
  rewrite Hset in Hd, Hl. cbn [snd] in Hd, Hl.
  split; [exact Hd|]. split.
  - exists l. split; [exact Hl|]. split; [exact HP|].
    intros a Ha Hn Hframes. destruct frames as [|frames]; [lia|].
    destruct (append_log_first E frames (Change key val) st a Ha Hn) as [l' Hl'].
    assert (sent (world st') = sent (world st) ++ (a, Append (Change key val)) :: l') as Hs.
    { rewrite <- Hl'. unfold DistributedDict.__setitem__ in Hset.
      unfold bind at 1 in Hset.
      destruct (DistributedDict._append_log E (S frames) (Change key val) st)
        as [[r0|e] st1]; inversion Hset; reflexivity. }
    rewrite Hs in Hl. apply app_inv_head in Hl. subst l. reflexivity.
  - intros frames' key' st'' Hc.
    destruct (getitem_no_refresh E frames' key' st' st'' Hc) as [Hg Hs].
    rewrite Hd in Hg. split; assumption.
Qed.

(** The mirror holds [x = 1]; [set('x', 5)] is accepted by the leader; the
    read that follows with the lock down still gives 1. *)
Lemma set_leaves_mirror_witness :
  data (self (DistributedDict.__setitem__ E_accepts 1 "x" (VInt 5) st_locked).2) =
  data (self st_locked) /\
  sent (world (DistributedDict.__setitem__ E_accepts 1 "x" (VInt 5) st_locked).2) =
  [(member_a, Append (Change "x" (VInt 5)))] /\
  DistributedDict.__getitem__ E_accepts 1 "x"
    (DistributedDict.__setitem__ E_accepts 1 "x" (VInt 5) st_locked).2 =
  (Ret (VInt 1),
   (DistributedDict.__setitem__ E_accepts 1 "x" (VInt 5) st_locked).2).
Proof.
  destruct (set_leaves_mirror E_accepts 1 "x" (VInt 5) st_locked
              (DistributedDict.__setitem__ E_accepts 1 "x" (VInt 5) st_locked).1
              (DistributedDict.__setitem__ E_accepts 1 "x" (VInt 5) st_locked).2
              eq_refl) as (Hd & _ & Hg).
  split; [exact Hd|]. split; [reflexivity|].
  apply (Hg 1 "x"). reflexivity.
Defined.

Section Delete.

Variable E : Env.

(** A forced refresh that gets a snapshot makes it the mirror. *)
Lemma refresh_forced frames st snapshot st0 :
  AbstractClient._get_state E frames st = (Ret snapshot, st0) ->
  DistributedDict.refresh E frames true st =
  (Ret tt, {| self := with_data snapshot (self st0); world := world st0 |}).
Proof.
  intros Hg. unfold DistributedDict.refresh.
  unfold bind at 1. unfold ret at 1. unfold bind at 1. rewrite Hg.
  reflexivity.
Qed.

(** Fetching the state exchanges nothing but [Get]. *)
Lemma get_state_sent frames st :
  exists l,
    sent (world (AbstractClient._get_state E frames st).2) = sent (world st) ++ l /\
    Forall (fun x => x.2 = Get) l.
Proof.
  assert (exists l, sent (world st) = sent (world st) ++ l /\
                    Forall (fun x : address * Message => x.2 = Get) l) as Hnil.
  { exists []. rewrite app_nil_r. split; [reflexivity|constructor]. }
  unfold AbstractClient._get_state. unfold bind at 1. unfold gets.
  unfold bind at 1. unfold getitem.
  destruct (data (self st) !! "cluster") as [cluster|]; [|exact Hnil].
  unfold ret at 1. unfold bind at 1. unfold random_choice.
  destruct (match cluster with
            | VList l => inr l
            | VStr s => inr (chars s)
            | _ => inl TypeError
            end) as [e|items]; [exact Hnil|].
  destruct (items !! (rand E (draws (world st)) mod length items))
    as [member|]; [|exact Hnil].
  unfold bind at 1.
  destruct (tuple member) as [e|t]; [exact Hnil|].
  unfold lift, ret at 1. unfold bind at 1. unfold assign_server_address.
  match goal with
  | |- context [AbstractClient._request E frames Get ?s] =>
      destruct (request_frame E frames Get s) as (_ & _ & _ & _ & _ & l & Hl & HP)
  end.
  exists l. split; [exact Hl|exact HP].
Qed.

End Delete.

(** C10: the forced refresh of [delete(key)] fetches a snapshot that does
    not hold [key].  Then the call raises [KeyError] at the removal; the
    mirror is the snapshot just fetched; and the only exchanges of the call
    are the [Get] exchanges of the refresh: no append was sent. *)
Theorem delete_absent_key (E : Env) (frames : nat) (key : string) (st : State)
    (snapshot : dict) (st0 : State) :
  AbstractClient._get_state E frames st = (Ret snapshot, st0) ->
  snapshot !! key = None ->
  DistributedDict.__delitem__ E frames key st =
  (Raise KeyError,
   {| self := with_data snapshot (self st0); world := world st0 |}) /\
  data (self (DistributedDict.__delitem__ E frames key st).2) = snapshot /\
  exists l,
    sent (world (DistributedDict.__delitem__ E frames key st).2) =
    sent (world st) ++ l /\
    Forall (fun x => x.2 = Get) l.
Proof.
  intros Hg Hk.
  assert (DistributedDict.__delitem__ E frames key st =
          (Raise KeyError,
           {| self := with_data snapshot (self st0); world := world st0 |})) as Hdel.
  { unfold DistributedDict.__delitem__. unfold bind at 1.
    rewrite (refresh_forced E frames st snapshot st0 Hg).
    unfold bind at 1. unfold delitem_data, DistributedDict.__keytransform__.
    cbn [self data with_data]. rewrite Hk. reflexivity. }
  split; [exact Hdel|]. rewrite Hdel. cbn [snd self world data with_data].
  split; [reflexivity|].
  destruct (get_state_sent E frames st) as (l & Hl & HP).
  rewrite Hg in Hl. cbn [snd] in Hl. exists l. split; assumption.
Qed.

(** The mirror holds [a = 1], the cluster no longer does. *)
Lemma delete_absent_key_witness :
  DistributedDict.__delitem__ E_key_gone 1 "a" st_stale =
  (Raise KeyError,
   {| self := with_data snapshot_gone
                (self (AbstractClient._get_state E_key_gone 1 st_stale).2);
      world := world (AbstractClient._get_state E_key_gone 1 st_stale).2 |}) /\
  data (self (DistributedDict.__delitem__ E_key_gone 1 "a" st_stale).2) =
  snapshot_gone /\
  exists l,
    sent (world (DistributedDict.__delitem__ E_key_gone 1 "a" st_stale).2) =
    sent (world st_stale) ++ l /\
    Forall (fun x => x.2 = Get) l.
Proof.
  apply (delete_absent_key E_key_gone 1 "a" st_stale snapshot_gone
           (AbstractClient._get_state E_key_gone 1 st_stale).2);
    reflexivity.
Defined.

(** C8, as the code has it: the forced refresh of [delete(key)] fetches a
    snapshot that holds [key].  Then the mirror becomes that snapshot
    without [key], and stays so whatever the write retry that follows
    returns or raises; the call ends as that retry of the
    append of the deletion ends; the refresh exchanged only [Get] and the
    retry only that append; and a read of [key] that follows, under a policy
    that answers false, raises [KeyError]. *)
Theorem delete_present_key (E : Env) (frames : nat) (key : string) (st : State)
    (snapshot : dict) (st0 : State) (v : value) :
  AbstractClient._get_state E frames st = (Ret snapshot, st0) ->
  snapshot !! key = Some v ->
  let st1 := {| self := with_data (delete key snapshot) (self st0);
                world := world st0 |} in
  let out := DistributedDict._append_log E frames (Delete key) st1 in
  DistributedDict.__delitem__ E frames key st = (void out.1, out.2) /\
  data (self out.2) = delete key snapshot /\
  (exists l, sent (world st0) = sent (world st) ++ l /\
             Forall (fun x => x.2 = Get) l) /\
  (exists l, sent (world out.2) = sent (world st0) ++ l /\
             Forall (fun x => x.2 = Append (Delete key)) l) /\
  forall (frames' : nat) (st3 : State),
    can_update E out.2 = (Ret false, st3) ->
    DistributedDict.__getitem__ E frames' key out.2 = (Raise KeyError, st3).
Proof.
  intros Hg Hk st1 out.
  pose proof (append_log_frame E frames (Delete key) st1)
    as (Hd & _ & _ & _ & _ & l & Hl & HP).
  fold out in Hd, Hl.
  split; [|split; [exact Hd|split; [|split]]].
  - unfold DistributedDict.__delitem__. unfold bind at 1.
    rewrite (refresh_forced E frames st snapshot st0 Hg).
    unfold bind at 1. unfold delitem_data, DistributedDict.__keytransform__.
    cbn [self data with_data world]. rewrite Hk.
    unfold bind at 1.
    change {| self := with_data (delete key snapshot)
                        (with_data snapshot (self st0));
              world := world st0 |} with st1.
    fold out. destruct out as [[r|e] st2]; reflexivity.
  - destruct (get_state_sent E frames st) as (l0 & Hl0 & HP0).
    rewrite Hg in Hl0. exists l0. split; assumption.
  - exists l. split; assumption.
  - intros frames' st3 Hc.
    destruct (getitem_no_refresh E frames' key out.2 st3 Hc) as [Hget _].
    rewrite Hget, Hd. cbn [st1 self data with_data].
    rewrite lookup_delete_eq. reflexivity.
Qed.

Lemma delete_present_key_witness :
  let st1 := {| self := with_data (delete "a" mirror_a)
                          (self (AbstractClient._get_state E_never_deletes 1 st_stale).2);
                world := world (AbstractClient._get_state E_never_deletes 1 st_stale).2 |} in
  let out := DistributedDict._append_log E_never_deletes 1 (Delete "a") st1 in
  DistributedDict.__delitem__ E_never_deletes 1 "a" st_stale =
    (void out.1, out.2) /\
  data (self out.2) = delete "a" mirror_a /\
  (exists l, sent (world (AbstractClient._get_state E_never_deletes 1 st_stale).2) =
             sent (world st_stale) ++ l /\
             Forall (fun x => x.2 = Get) l) /\
  (exists l, sent (world out.2) =
             sent (world (AbstractClient._get_state E_never_deletes 1 st_stale).2) ++ l /\
             Forall (fun x => x.2 = Append (Delete "a")) l) /\
  forall (frames' : nat) (st3 : State),
    can_update E_never_deletes out.2 = (Ret false, st3) ->
    DistributedDict.__getitem__ E_never_deletes frames' "a" out.2 =
    (Raise KeyError, st3).
Proof.
  apply (delete_present_key E_never_deletes 1 "a" st_stale mirror_a
           (AbstractClient._get_state E_never_deletes 1 st_stale).2 (VInt 1));
    reflexivity.
Defined.

(** The same run, evaluated: three refused appends, the key gone from the
    mirror all the same, and the read that follows raises. *)
Example delete_refused_run :
  (DistributedDict.__delitem__ E_never_deletes 1 "a" st_stale).1 = Ret tt /\
  sent (world (DistributedDict.__delitem__ E_never_deletes 1 "a" st_stale).2) =
    (member_a, Get) :: repeat (member_a, Append (Delete "a")) 3 /\
  (DistributedDict.__getitem__ E_never_deletes 1 "a"
     (DistributedDict.__delitem__ E_never_deletes 1 "a" st_stale).2).1 =
  Raise KeyError.
Proof. repeat split; reflexivity. Qed.

(** C8 fails on the code as stated: [a] is in the local mirror, but not in
    the snapshot that the forced refresh fetches; [delete('a')] raises
    [KeyError] and has sent one [Get] and no append. *)
Lemma delete_of_mirrored_key_raises :
  data (self st_stale) !! "a" = Some (VInt 1) /\
  (DistributedDict.__delitem__ E_key_gone 1 "a" st_stale).1 = Raise KeyError /\
  sent (world (DistributedDict.__delitem__ E_key_gone 1 "a" st_stale).2) =
    [(member_a, Get)].
Proof. repeat split; reflexivity. Qed.

(** A read that returns gives the value that the mirror holds under the
    key once the read is over. *)
Lemma getitem_returns_mirror (E : Env) (frames : nat) (key : string)
    (st : State) (v : value) (st' : State) :
  DistributedDict.__getitem__ E frames key st = (Ret v, st') ->
  data (self st') !! key = Some v.
Proof.
  unfold DistributedDict.__getitem__. unfold bind at 1.
  destruct (DistributedDict.refresh E frames false st) as [[[]|e] st1];
    [|discriminate].
  unfold bind at 1. unfold gets. unfold getitem.
  destruct (data (self st1) !! key) as [v'|] eqn:Hk; [|discriminate].
  intros H. inversion H; subst. exact Hk.
Qed.

(** C3, as the code has it: the membership list is the value under
    ['cluster'] of the mapping that holds the application keys, whatever
    the policy.  A read of ['cluster'] whose refresh step does not raise is
    the lookup of ['cluster'] in the mirror, so what it returns is the value
    that the mirror holds there.  The member that the next refresh contacts
    is drawn from the value that the mirror holds there: when it is a list,
    the first exchange is with the member drawn from it; and when it is
    [None], a boolean or an integer, fetching the state raises [TypeError]
    with no exchange. *)
Theorem cluster_key_shared (E : Env) (frames : nat) (st : State) :
  (forall st1 : State,
     DistributedDict.refresh E frames false st = (Ret tt, st1) ->
     DistributedDict.__getitem__ E frames "cluster" st =
     (match data (self st1) !! "cluster" with
      | Some v => Ret v
      | None => Raise KeyError
      end, st1)) /\
  (forall (v : value) (st' : State),
     DistributedDict.__getitem__ E frames "cluster" st = (Ret v, st') ->
     data (self st') !! "cluster" = Some v) /\
  (forall (l : list value) (member : value) (t : address),
     data (self st) !! "cluster" = Some (VList l) ->
     l !! (rand E (draws (world st)) mod length l) = Some member ->
     tuple member = inr t ->
     exists l',
       sent (world (AbstractClient._get_state E (S frames) st).2) =
       sent (world st) ++ (t, Get) :: l') /\
  (forall v : value,
     data (self st) !! "cluster" = Some v ->
     v = VNone \/ (exists b, v = VBool b) \/ (exists z, v = VInt z) ->
     AbstractClient._get_state E frames st = (Raise TypeError, st)).
Proof.
  split; [|split; [|split]].
  - intros st1 Hr.
    unfold DistributedDict.__getitem__. unfold bind at 1. rewrite Hr.
    unfold bind at 1. unfold gets. unfold getitem.
    destruct (data (self st1) !! "cluster"); reflexivity.
  - intros v st' H. exact (getitem_returns_mirror E frames "cluster" st v st' H).
  - intros l member t Hv Hm Ht.
    unfold AbstractClient._get_state. unfold bind at 1. unfold gets.
    unfold bind at 1. unfold getitem. rewrite Hv. unfold ret at 1.
    unfold bind at 1. unfold random_choice. rewrite Hm.
    unfold bind at 1. rewrite Ht. unfold lift, ret at 1.
    unfold bind at 1. unfold assign_server_address.
    match goal with
    | |- context [AbstractClient._request E (S frames) Get ?s] =>
        destruct (request_first E frames Get s t eq_refl) as [l' Hl']
    end.
    exists l'. exact Hl'.
  - intros v Hv Hbad.
    unfold AbstractClient._get_state. unfold bind at 1. unfold gets.
    unfold bind at 1. unfold getitem. rewrite Hv. unfold ret at 1.
    unfold bind at 1. unfold random_choice.
    destruct Hbad as [->|[[b ->]|[z ->]]]; reflexivity.
Qed.

(** Under the default policy, which refreshes at every read.  On a client
    whose mirror holds the member list, the read of ['cluster'] gives that
    list and the next refresh asks the member drawn from it.  On the client
    that has read back its own [d['cluster'] = 5], the read has given 5,
    the mirror holds 5 under ['cluster'], and fetching the state raises
    [TypeError]. *)
Lemma cluster_key_shared_witness :
  (DistributedDict.__getitem__ E_dict_machine 1 "cluster" st_fresh =
     (Ret (VList [VList member_a]),
      (DistributedDict.refresh E_dict_machine 1 false st_fresh).2) /\
   exists l',
     sent (world (AbstractClient._get_state E_dict_machine 2 st_fresh).2) =
     sent (world st_fresh) ++ (member_a, Get) :: l') /\
  (data (self st_read) !! "cluster" = Some (VInt 5) /\
   AbstractClient._get_state E_dict_machine 1 st_read =
     (Raise TypeError, st_read)).
Proof.
  split; split.
  - apply (proj1 (cluster_key_shared E_dict_machine 1 st_fresh)
             (DistributedDict.refresh E_dict_machine 1 false st_fresh).2).
    reflexivity.
  - apply (proj1 (proj2 (proj2 (cluster_key_shared E_dict_machine 1 st_fresh)))
             [VList member_a] (VList member_a) member_a); reflexivity.
  - apply (proj1 (proj2 (cluster_key_shared E_dict_machine 1 st_written))
             (VInt 5) st_read).
    reflexivity.
  - apply (proj2 (proj2 (proj2 (cluster_key_shared E_dict_machine 1 st_read)))
             (VInt 5)).
    + reflexivity.
    + right. right. exists 5%Z. reflexivity.
Defined.

(** C3 fails on the code.  Before the application has written anything, a
    read of ['cluster'] finds the membership list.  Once the application
    has written [d['cluster'] = 5] and the cluster has applied it, a read of
    ['cluster'] gives 5, the mirror holds 5 where the members were, and
    from then on fetching the state, and so every read, raises
    [TypeError]. *)
Lemma cluster_key_collides :
  (DistributedDict.__getitem__ E_dict_machine 1 "cluster" st_fresh).1 =
    Ret (VList [VList member_a]) /\
  (DistributedDict.__setitem__ E_dict_machine 1 "cluster" (VInt 5) st_fresh).1 =
    Ret tt /\
  (DistributedDict.__getitem__ E_dict_machine 1 "cluster" st_written).1 =
    Ret (VInt 5) /\
  data (self st_read) !! "cluster" = Some (VInt 5) /\
  AbstractClient._get_state E_dict_machine 1 st_read = (Raise TypeError, st_read) /\
  (DistributedDict.__getitem__ E_dict_machine 1 "x" st_read).1 = Raise TypeError.
Proof. repeat split; reflexivity. Qed.

(** * Further properties of the request path *)

(** Whenever [_request] returns, what it returns is no redirect, and it is
    the answer to the last exchange of the call, made with the member that
    the client tracks afterwards. *)
Theorem request_returns_final_answer (E : Env) (frames : nat)
    (message : Message) : forall (st : State) (resp : dict) (st' : State),
  AbstractClient._request E frames message st = (Ret resp, st') ->
  is_redirect resp = false /\
  exists (h : list (address * Message)) (a : address),
    sent (world st') = h ++ [(a, message)] /\
    server_address (self st') = Some a /\
    net E h a message = inr resp.
Proof.
  induction frames as [|frames IH]; intros st resp st' H; [discriminate H|].
  cbn [AbstractClient._request] in H.
  unfold bind at 1 in H. unfold attr_server_address in H.
  destruct (server_address (self st)) as [a|] eqn:Ha; [|discriminate H].
  unfold bind at 1 in H. unfold exchange in H.
  destruct (net E (sent (world st)) a message) as [e|r] eqn:Hn;
    [discriminate H|].
  destruct (is_redirect r) eqn:Hr.
  - unfold bind at 1 in H. unfold getitem in H.
    destruct (r !! "leader") as [leader|]; [|discriminate H].
    unfold ret at 1 in H. unfold bind at 1 in H.
    destruct (tuple leader) as [e|b]; [discriminate H|].
    unfold lift, ret at 1 in H. unfold bind at 1 in H.
    unfold assign_server_address in H.
    apply (IH _ _ _ H).
  - inversion H; subst. split; [exact Hr|].
    exists (sent (world st)), a. repeat split; assumption.
Qed.

Lemma request_returns_final_answer_witness :
  is_redirect snapshot_b = false /\
  exists (h : list (address * Message)) (a : address),
    sent (world (AbstractClient._request E_follower_leader 2 Get
                   (client member_a ∅ 3 PolicyAlways)).2) =
      h ++ [(a, Get)] /\
    server_address (self (AbstractClient._request E_follower_leader 2 Get
                            (client member_a ∅ 3 PolicyAlways)).2) = Some a /\
    net E_follower_leader h a Get = inr snapshot_b.
Proof.
  apply (request_returns_final_answer E_follower_leader 2 Get
           (client member_a ∅ 3 PolicyAlways)).
  reflexivity.
Defined.

(** One step of [_request], when the connection fails. *)
Lemma request_error (E : Env) (frames : nat) (message : Message)
    (st : State) (a : address) (e : exn) :
  server_address (self st) = Some a ->
  net E (sent (world st)) a message = inl e ->
  AbstractClient._request E (S frames) message st =
  (Raise e, logged a message st).
Proof.
  intros Ha Hn. cbn [AbstractClient._request].
  unfold bind at 1. unfold attr_server_address. rewrite Ha.
  unfold bind at 1. unfold exchange. rewrite Hn. reflexivity.
Qed.

(** Any answer whose ['type'] is ['redirect'] is taken for a redirect,
    whatever the request was.  When it names no leader the call raises
    [KeyError], and when the leader it names cannot be made a tuple it
    raises [TypeError]; in both cases after that one exchange and with the
    tracked member unchanged. *)
Theorem request_malformed_redirect (E : Env) (frames : nat) (message : Message)
    (st : State) (a : address) (resp : dict) :
  server_address (self st) = Some a ->
  net E (sent (world st)) a message = inr resp ->
  resp !! "type" = Some (VStr "redirect") ->
  match resp !! "leader" with
  | None => True
  | Some leader => tuple leader = inl TypeError
  end ->
  AbstractClient._request E (S frames) message st =
  (Raise match resp !! "leader" with
         | None => KeyError
         | Some _ => TypeError
         end,
   logged a message st).
Proof.
  intros Ha Hn Hty Hl. cbn [AbstractClient._request].
  unfold bind at 1. unfold attr_server_address. rewrite Ha.
  unfold bind at 1. unfold exchange. rewrite Hn.
  unfold is_redirect. rewrite Hty. cbn [String.eqb Ascii.eqb Bool.eqb].
  unfold bind at 1. unfold getitem.
  destruct (resp !! "leader") as [leader|]; [|reflexivity].
  unfold ret at 1. unfold bind at 1. rewrite Hl. reflexivity.
Qed.

Lemma request_malformed_redirect_witness :
  AbstractClient._request E_bad_redirect 1 Get
    (client member_a ∅ 3 PolicyAlways) =
  (Raise match redirect_nowhere !! "leader" with
         | None => KeyError
         | Some _ => TypeError
         end,
   logged member_a Get (client member_a ∅ 3 PolicyAlways)).
Proof.
  apply (request_malformed_redirect E_bad_redirect 0 Get
           (client member_a ∅ 3 PolicyAlways) member_a redirect_nowhere);
    first [reflexivity | exact I].
Defined.

(** Whatever a request, a diagnostic or a change of the cluster
    configuration comes to, it leaves the mirror, the retry count, the
    policy, the random draws and the clock as they were, and every exchange
    it makes carries its own message. *)
Theorem requests_leave_mirror (E : Env) (frames : nat) (st : State) :
  (forall message : Message,
     frame (fun x => x.2 = message) st
       (AbstractClient._request E frames message st).2) /\
  frame (fun x => x.2 = Diagnostic) st (AbstractClient.diagnostic E frames st).2 /\
  (forall action addr port : value,
     frame (fun x => x.2 = Config action addr port) st
       (AbstractClient.config_cluster E frames action addr port st).2).
Proof.
  split; [|split].
  - intros message. apply request_frame.
  - apply (request_frame E frames Diagnostic).
  - intros action addr port. apply (request_frame E frames (Config action addr port)).
Qed.

(** * Further properties of fetching the state *)

Section GetState.

Variable E : Env.

(** With a list of members in the mirror, fetching the state is a [Get]
    request to the member drawn from it. *)
Lemma get_state_run frames st (l : list value) member t :
  data (self st) !! "cluster" = Some (VList l) ->
  l !! (rand E (draws (world st)) mod length l) = Some member ->
  tuple member = inr t ->
  AbstractClient._get_state E frames st =
  AbstractClient._request E frames Get (moved t (drawn st)).
Proof.
  intros Hc Hm Ht.
  unfold AbstractClient._get_state. unfold bind at 1. unfold gets.
  unfold bind at 1. unfold getitem. rewrite Hc. unfold ret at 1.
  unfold bind at 1. unfold random_choice. rewrite Hm.
  unfold bind at 1. rewrite Ht. unfold lift, ret at 1.
  unfold bind at 1. unfold assign_server_address. reflexivity.
Qed.

(** Fetching the state leaves the mirror, the retry count, the policy and
    the clock as they were, and exchanges nothing but [Get]. *)
Lemma get_state_frame frames st :
  untouched st (AbstractClient._get_state E frames st).2.
Proof.
  assert (untouched st st) as Hrefl by (repeat split; reflexivity).
  unfold AbstractClient._get_state. unfold bind at 1. unfold gets.
  unfold bind at 1. unfold getitem.
  destruct (data (self st) !! "cluster") as [cluster|]; [|exact Hrefl].
  unfold ret at 1. unfold bind at 1. unfold random_choice.
  destruct (match cluster with
            | VList l => inr l
            | VStr s => inr (chars s)
            | _ => inl TypeError
            end) as [e|items]; [exact Hrefl|].
  destruct (items !! (rand E (draws (world st)) mod length items))
    as [member|]; [|exact Hrefl].
  unfold bind at 1.
  destruct (tuple member) as [e|t]; [exact Hrefl|].
  unfold lift, ret at 1. unfold bind at 1. unfold assign_server_address.
  match goal with
  | |- context [AbstractClient._request E frames Get ?s] =>
      destruct (request_frame E frames Get s) as (Hd & Ha & Hp & _ & Ht & _)
  end.
  split; [exact Hd|]. split; [exact Ha|]. split; [exact Hp|exact Ht].
Qed.

End GetState.

(** Without members there is nobody to ask: when the mirror has no
    ['cluster'] fetching the state raises [KeyError], and when ['cluster']
    is an empty sequence it raises [IndexError]; in both cases nothing is
    drawn, nothing is exchanged, and the instance is as it was. *)
Theorem get_state_without_members (E : Env) (frames : nat) (st : State) :
  match data (self st) !! "cluster" with
  | None => True
  | Some v => v = VList [] \/ v = VStr ""
  end ->
  AbstractClient._get_state E frames st =
  (Raise match data (self st) !! "cluster" with
         | None => KeyError
         | Some _ => IndexError
         end, st).
Proof.
  intros H.
  unfold AbstractClient._get_state. unfold bind at 1. unfold gets.
  unfold bind at 1. unfold getitem.
  destruct (data (self st) !! "cluster") as [v|]; [|reflexivity].
  unfold ret at 1. unfold bind at 1. unfold random_choice.
  destruct H as [->| ->]; reflexivity.
Qed.

Lemma get_state_without_members_witness :
  AbstractClient._get_state E_accepts 1 (client member_a ∅ 3 PolicyAlways) =
  (Raise match data (self (client member_a ∅ 3 PolicyAlways)) !! "cluster" with
         | None => KeyError
         | Some _ => IndexError
         end, client member_a ∅ 3 PolicyAlways).
Proof.
  apply (get_state_without_members E_accepts 1
           (client member_a ∅ 3 PolicyAlways)).
  exact I.
Defined.

(** Fetching the state does not depend on the member tracked before: the
    member to ask is drawn afresh from the mirror, so a leader learnt from
    a redirect is forgotten at the next refresh. *)
Theorem get_state_forgets_leader (E : Env) (frames : nat) (st : State)
    (l : list value) (member : value) (t b : address) :
  data (self st) !! "cluster" = Some (VList l) ->
  l !! (rand E (draws (world st)) mod length l) = Some member ->
  tuple member = inr t ->
  AbstractClient._get_state E frames (moved b st) =
  AbstractClient._get_state E frames st /\
  exists l',
    sent (world (AbstractClient._get_state E (S frames) (moved b st)).2) =
    sent (world st) ++ (t, Get) :: l'.
Proof.
  intros Hc Hm Ht. split.
  - rewrite (get_state_run E frames st l member t Hc Hm Ht).
    rewrite (get_state_run E frames (moved b st) l member t Hc Hm Ht).
    reflexivity.
  - rewrite (get_state_run E (S frames) (moved b st) l member t Hc Hm Ht).
    destruct (request_first E frames Get (moved t (drawn (moved b st))) t eq_refl)
      as [l' Hl'].
    exists l'. exact Hl'.
Qed.

(** The client tracks b, the leader; the draw gives a, the first of the
    two members in the mirror, and the read goes to a. *)
Lemma get_state_forgets_leader_witness :
  AbstractClient._get_state E_follower_leader 2 (moved member_b st_tracks_b) =
  AbstractClient._get_state E_follower_leader 2 st_tracks_b /\
  exists l',
    sent (world (AbstractClient._get_state E_follower_leader 3
                   (moved member_b st_tracks_b)).2) =
    sent (world st_tracks_b) ++ (member_a, Get) :: l'.
Proof.
  apply (get_state_forgets_leader E_follower_leader 2 st_tracks_b
           [VList member_a; VList member_b] (VList member_a) member_a member_b);
    reflexivity.
Defined.

(** * Further properties of the facade *)

(** Construction against a seed that answers. *)
Lemma init_run (E : Env) (frames : nat) (addr port : value) (n : Z)
    (policy : RefreshPolicy) (w : World) (snapshot : dict) :
  net E (sent w) [addr; port] Get = inr snapshot ->
  is_redirect snapshot = false ->
  DistributedDict.__init__ E (S frames) addr port n policy w =
  (Ret {| server_address := Some [addr; port];
          data := snapshot;
          append_retry_attempts := n;
          refresh_policy := policy |},
   {| sent := sent w ++ [([addr; port], Get)];
      draws := S (draws w);
      ticks := ticks w |}).
Proof.
  intros Hn Hr. unfold DistributedDict.__init__.
  set (st := {| self := DistributedDict.fresh addr port n policy; world := w |}).
  assert (AbstractClient._get_state E (S frames) st =
          (Ret snapshot, logged [addr; port] Get (moved [addr; port] (drawn st))))
    as Hg.
  { rewrite (get_state_run E (S frames) st [VList [addr; port]]
               (VList [addr; port]) [addr; port]).
    - apply request_answer; [reflexivity|exact Hn|exact Hr].
    - apply lookup_insert_eq.
    - cbn [length]. rewrite Nat.mod_1_r. reflexivity.
    - reflexivity. }
  rewrite (refresh_forced E (S frames) st snapshot _ Hg). reflexivity.
Qed.

(** Construction asks the seed member, once, and does not ask the policy:
    when the seed answers [Get] with a snapshot, the client built has the
    snapshot as its whole mirror, in place of the seed list, tracks the
    seed, and holds the retry count and the policy as given. *)
Theorem init_builds (E : Env) (frames : nat) (addr port : value) (n : Z)
    (policy : RefreshPolicy) (w : World) (snapshot : dict) :
  net E (sent w) [addr; port] Get = inr snapshot ->
  is_redirect snapshot = false ->
  DistributedDict.__init__ E (S frames) addr port n policy w =
  (Ret {| server_address := Some [addr; port];
          data := snapshot;
          append_retry_attempts := n;
          refresh_policy := policy |},
   {| sent := sent w ++ [([addr; port], Get)];
      draws := S (draws w);
      ticks := ticks w |}).
Proof. apply init_run. Qed.

Lemma init_builds_witness :
  DistributedDict.__init__ E_accepts 1 (VStr "10.0.0.1") (VInt 5254) 3
    (PolicyLock false) world0 =
  (Ret {| server_address := Some [VStr "10.0.0.1"; VInt 5254];
          data := mirror_x;
          append_retry_attempts := 3;
          refresh_policy := PolicyLock false |},
   {| sent := sent world0 ++ [([VStr "10.0.0.1"; VInt 5254], Get)];
      draws := S (draws world0);
      ticks := ticks world0 |}).
Proof.
  apply (init_builds E_accepts 0 (VStr "10.0.0.1") (VInt 5254) 3
           (PolicyLock false) world0 mirror_x); reflexivity.
Defined.

(** When the seed cannot be reached, construction raises what the
    connection raised, after that one attempt: no client is built. *)
Theorem init_unreachable_seed (E : Env) (frames : nat) (addr port : value)
    (n : Z) (policy : RefreshPolicy) (w : World) (e : exn) :
  net E (sent w) [addr; port] Get = inl e ->
  DistributedDict.__init__ E (S frames) addr port n policy w =
  (Raise e,
   {| sent := sent w ++ [([addr; port], Get)];
      draws := S (draws w);
      ticks := ticks w |}).
Proof.
  intros Hn. unfold DistributedDict.__init__.
  set (st := {| self := DistributedDict.fresh addr port n policy; world := w |}).
  unfold DistributedDict.refresh. unfold bind at 1. unfold ret at 1.
  unfold bind at 1.
  rewrite (get_state_run E (S frames) st [VList [addr; port]]
             (VList [addr; port]) [addr; port]).
  - rewrite (request_error E frames Get (moved [addr; port] (drawn st))
               [addr; port] e eq_refl Hn).
    reflexivity.
  - apply lookup_insert_eq.
  - cbn [length]. rewrite Nat.mod_1_r. reflexivity.
  - reflexivity.
Qed.

Lemma init_unreachable_seed_witness :
  DistributedDict.__init__ E_down 1 (VStr "10.0.0.1") (VInt 5254) 3
    PolicyAlways world0 =
  (Raise OSError,
   {| sent := sent world0 ++ [([VStr "10.0.0.1"; VInt 5254], Get)];
      draws := S (draws world0);
      ticks := ticks world0 |}).
Proof.
  apply (init_unreachable_seed E_down 0 (VStr "10.0.0.1") (VInt 5254) 3
           PolicyAlways world0 OSError); reflexivity.
Defined.

Section Reads.

Variable E : Env.

(** A refresh, forced or not, that does not come back with a snapshot
    leaves the mirror as it was. *)
Lemma refresh_data frames force st r st' :
  DistributedDict.refresh E frames force st = (r, st') ->
  r <> Ret tt ->
  data (self st') = data (self st).
Proof.
  assert (forall st1, data (self st1) = data (self st) ->
    bind (AbstractClient._get_state E frames)
         (fun snapshot => modify (with_data snapshot)) st1 = (r, st') ->
    r <> Ret tt -> data (self st') = data (self st)) as Hfetch.
  { intros st1 Hd1. unfold bind.
    pose proof (get_state_frame E frames st1) as (Hd & _).
    destruct (AbstractClient._get_state E frames st1) as [[snapshot|e] st2];
      cbn [fst snd] in *; intros Heq Hne; inversion Heq; subst.
    - exfalso. apply Hne. reflexivity.
    - congruence. }
  unfold DistributedDict.refresh. intros H Hne.
  destruct force.
  - unfold bind at 1 in H. unfold ret at 1 in H.
    apply (Hfetch st); [reflexivity|exact H|exact Hne].
  - unfold bind at 1 in H.
    pose proof (can_update_frame E st) as (Hd & _).
    destruct (can_update E st) as [[[|]|e] st1]; cbn [fst snd] in *.
    + apply (Hfetch st1); [exact Hd|exact H|exact Hne].
    + inversion H; subst. exfalso. apply Hne. reflexivity.
    + inversion H; subst. exact Hd.
Qed.

End Reads.

(** A read whose refresh fails raises what the refresh raised, rather than
    serving the value it has; the mirror is as it was before the read. *)
Theorem read_error_keeps_mirror (E : Env) (frames : nat) (key : string)
    (st : State) (e : exn) :
  (DistributedDict.refresh E frames false st).1 = Raise e ->
  DistributedDict.__getitem__ E frames key st =
  (Raise e, (DistributedDict.refresh E frames false st).2) /\
  data (self (DistributedDict.refresh E frames false st).2) = data (self st).
Proof.
  intros H. split.
  - unfold DistributedDict.__getitem__. unfold bind at 1.
    destruct (DistributedDict.refresh E frames false st) as [r st1].
    cbn [fst snd] in *. subst r. reflexivity.
  - apply (refresh_data E frames false st (Raise e)
             (DistributedDict.refresh E frames false st).2).
    + rewrite <- H. destruct (DistributedDict.refresh E frames false st).
      reflexivity.
    + discriminate.
Qed.

(** Nobody listens, the mirror holds [x = 1], the policy is to refresh at
    every read: the read of [x] raises. *)
Lemma read_error_keeps_mirror_witness :
  DistributedDict.__getitem__ E_down 1 "x"
    (client member_a mirror_x 3 PolicyAlways) =
  (Raise OSError,
   (DistributedDict.refresh E_down 1 false
      (client member_a mirror_x 3 PolicyAlways)).2) /\
  data (self (DistributedDict.refresh E_down 1 false
                (client member_a mirror_x 3 PolicyAlways)).2) =
  data (self (client member_a mirror_x 3 PolicyAlways)).
Proof.
  apply (read_error_keeps_mirror E_down 1 "x"
           (client member_a mirror_x 3 PolicyAlways) OSError).
  reflexivity.
Defined.

(** A read that the policy lets refresh is a lookup in the snapshot just
    fetched, which has replaced the mirror as a whole: nothing of the old
    mirror is kept. *)
Theorem read_refreshes (E : Env) (frames : nat) (key : string)
    (st st1 st2 : State) (snapshot : dict) :
  can_update E st = (Ret true, st1) ->
  AbstractClient._get_state E frames st1 = (Ret snapshot, st2) ->
  DistributedDict.__getitem__ E frames key st =
  (match snapshot !! key with
   | Some v => Ret v
   | None => Raise KeyError
   end,
   {| self := with_data snapshot (self st2); world := world st2 |}).
Proof.
  intros Hc Hg.
  unfold DistributedDict.__getitem__, DistributedDict.refresh.
  unfold bind at 1. unfold bind at 1. rewrite Hc.
  unfold bind at 1. rewrite Hg. unfold modify.
  unfold bind at 1. unfold gets. cbn [self data with_data].
  unfold getitem. destruct (snapshot !! key); reflexivity.
Qed.

(** The mirror holds [a = 1], the cluster does not: the read of [a]
    raises [KeyError]. *)
Lemma read_refreshes_witness :
  DistributedDict.__getitem__ E_key_gone 1 "a"
    (client member_a mirror_a 3 PolicyAlways) =
  (match snapshot_gone !! "a" with
   | Some v => Ret v
   | None => Raise KeyError
   end,
   {| self := with_data snapshot_gone
                (self (AbstractClient._get_state E_key_gone 1
                         (client member_a mirror_a 3 PolicyAlways)).2);
      world := world (AbstractClient._get_state E_key_gone 1
                        (client member_a mirror_a 3 PolicyAlways)).2 |}).
Proof.
  apply (read_refreshes E_key_gone 1 "a"
           (client member_a mirror_a 3 PolicyAlways)
           (client member_a mirror_a 3 PolicyAlways)
           (AbstractClient._get_state E_key_gone 1
              (client member_a mirror_a 3 PolicyAlways)).2 snapshot_gone);
    reflexivity.
Defined.

(** With the lock down a read is local: it is the lookup in the mirror and
    changes nothing, neither the instance nor the world. *)
Theorem lock_down_read_is_local (E : Env) (frames : nat) (key : string)
    (st : State) :
  refresh_policy (self st) = PolicyLock false ->
  DistributedDict.__getitem__ E frames key st =
  (match data (self st) !! key with
   | Some v => Ret v
   | None => Raise KeyError
   end, st).
Proof.
  intros Hp.
  apply (getitem_no_refresh E frames key st st).
  unfold can_update. rewrite Hp. reflexivity.
Qed.

Lemma lock_down_read_is_local_witness :
  DistributedDict.__getitem__ E_down 1 "x" st_locked =
  (match data (self st_locked) !! "x" with
   | Some v => Ret v
   | None => Raise KeyError
   end, st_locked).
Proof.
  apply (lock_down_read_is_local E_down 1 "x" st_locked). reflexivity.
Defined.

(** * Further properties of the policies, as the facade uses them *)

Section PolicyUse.

Variable E : Env.

(** A read ends in the state in which its refresh ends. *)
Lemma getitem_state frames key st :
  (DistributedDict.__getitem__ E frames key st).2 =
  (DistributedDict.refresh E frames false st).2.
Proof.
  unfold DistributedDict.__getitem__. unfold bind at 1.
  destruct (DistributedDict.refresh E frames false st) as [[[]|e] st1];
    try reflexivity.
  unfold bind at 1. unfold gets. unfold getitem.
  destruct (data (self st1) !! key); reflexivity.
Qed.

(** A forced refresh leaves the policy and the clock as they were. *)
Lemma refresh_forced_policy frames st :
  refresh_policy (self (DistributedDict.refresh E frames true st).2) =
    refresh_policy (self st) /\
  ticks (world (DistributedDict.refresh E frames true st).2) = ticks (world st).
Proof.
  pose proof (get_state_frame E frames st) as (_ & _ & Hp & Ht).
  unfold DistributedDict.refresh. unfold bind at 1. unfold ret at 1.
  unfold bind at 1. unfold bind at 1. unfold ret at 1. unfold bind at 1.
  destruct (AbstractClient._get_state E frames st) as [[snapshot|e] st1];
    cbn [fst snd] in *; split; first [exact Hp|exact Ht].
Qed.

End PolicyUse.

(** A deletion never asks the policy: whatever comes of it, the policy,
    and so the counter of a count policy and the baseline of a time policy,
    is as it was, and the clock has not been read. *)
Theorem delete_skips_policy (E : Env) (frames : nat) (key : string)
    (st : State) :
  refresh_policy (self (DistributedDict.__delitem__ E frames key st).2) =
    refresh_policy (self st) /\
  ticks (world (DistributedDict.__delitem__ E frames key st).2) =
    ticks (world st).
Proof.
  pose proof (refresh_forced_policy E frames st) as [Hp Ht].
  destruct (DistributedDict.__delitem__ E frames key st) as [r st'] eqn:H.
  cbn [snd]. revert H.
  unfold DistributedDict.__delitem__. unfold bind at 1.
  destruct (DistributedDict.refresh E frames true st) as [[[]|e] st1];
    cbn [fst snd] in *;
    try (intros H; inversion H; subst; split; [exact Hp|exact Ht]).
  unfold bind at 1.
  unfold delitem_data, DistributedDict.__keytransform__.
  destruct (data (self st1) !! key) as [v|];
    [|intros H; inversion H; subst; split; [exact Hp|exact Ht]].
  unfold bind at 1.
  match goal with
  | |- context [DistributedDict._append_log E frames (Delete key) ?s] =>
      pose proof (append_log_frame E frames (Delete key) s)
        as (_ & _ & Hp' & _ & Ht' & _);
      destruct (DistributedDict._append_log E frames (Delete key) s)
        as [[r0|e] st2]
  end; cbn [fst snd self world with_data refresh_policy ticks] in *;
    intros H; inversion H; subst; split; congruence.
Qed.

(** Every read asks a count policy exactly once, whether the refresh that
    may follow works or not: after the read the policy is the one that a
    single call of [can_update] leaves. *)
Theorem read_steps_count_policy (E : Env) (frames : nat) (key : string)
    (st : State) (p : RefreshPolicyCount) :
  refresh_policy (self st) = PolicyCount p ->
  refresh_policy (self (DistributedDict.__getitem__ E frames key st).2) =
  PolicyCount (RefreshPolicyCount.can_update p).2.
Proof.
  intros Hp. rewrite getitem_state.
  unfold DistributedDict.refresh. unfold bind at 1.
  unfold can_update. rewrite Hp.
  destruct (RefreshPolicyCount.can_update p) as [b p'].
  cbn [snd]. destruct b; [|reflexivity].
  unfold bind at 1.
  match goal with
  | |- context [AbstractClient._get_state E frames ?s] =>
      pose proof (get_state_frame E frames s) as (_ & _ & Hp' & _);
      destruct (AbstractClient._get_state E frames s) as [[snapshot|e] st1]
  end; cbn [fst snd] in *; exact Hp'.
Qed.

(** Period 2, nobody listens: the first read is local, the second tries to
    refresh and fails; the counter has gone 0, 1, 0 all the same. *)
Lemma read_steps_count_policy_witness :
  refresh_policy (self (DistributedDict.__getitem__ E_down 1 "x" st_counting).2) =
  PolicyCount (RefreshPolicyCount.can_update {| counter := 0; maximum := 2 |}).2.
Proof.
  apply (read_steps_count_policy E_down 1 "x" st_counting
           {| counter := 0; maximum := 2 |}).
  reflexivity.
Defined.

(** For every maximum of at least 1 the answers of a count policy are
    periodic with that period: the [i]-th call (from 1) answers true exactly
    when [i] is a multiple of the maximum, and after [n] calls the counter
    is [n] modulo the maximum.  With maximum 1 every call answers true. *)
Theorem count_gated_periodic (maximum : Z) (n : nat) :
  (1 <= maximum)%Z ->
  calls n (RefreshPolicyCount.__init__ maximum) =
  ((fun i : nat => (Z.of_nat (S i) mod maximum =? 0)%Z) <$> seq 0 n,
   {| counter := Z.of_nat n mod maximum; maximum := maximum |}) /\
  (maximum = 1%Z ->
   (calls n (RefreshPolicyCount.__init__ maximum)).1 = repeat true n).
Proof.
  intros Hm. unfold RefreshPolicyCount.__init__.
  rewrite (calls_periodic maximum n Hm 0%Z) by lia.
  split.
  - f_equal.
    apply list_fmap_ext. intros _ i _. cbn beta.
    replace (0 + Z.of_nat i + 1)%Z with (Z.of_nat (S i)) by lia.
    reflexivity.
  - intros ->. cbn [fst].
    clear Hm. generalize 0%nat. induction n as [|n IH]; intros k; [reflexivity|].
    cbn [seq fmap list_fmap repeat]. rewrite Z.mod_1_r. f_equal. apply IH.
Qed.

Lemma count_gated_periodic_witness :
  calls 5 (RefreshPolicyCount.__init__ 1) =
  ((fun i : nat => (Z.of_nat (S i) mod 1 =? 0)%Z) <$> seq 0 5,
   {| counter := Z.of_nat 5 mod 1; maximum := 1 |}) /\
  (1%Z = 1%Z ->
   (calls 5 (RefreshPolicyCount.__init__ 1)).1 = repeat true 5).
Proof.
  apply (count_gated_periodic 1 5). lia.
Defined.

(** On a clock that does not go back, two successive true answers of a
    time policy have baselines further apart than the interval. *)
Theorem time_gated_spacing (E : Env) (us last : Z) (w : World)
    (p' : RefreshPolicyTime) (w' : World) :
  (forall i : nat, (clock E i <= clock E (S i))%Z) ->
  RefreshPolicyTime.can_update E
    {| delta := Timedelta us; last_refresh := Some last |} w =
  (Ret true, p', w') ->
  exists last' : Z,
    last_refresh p' = Some last' /\ (us < last' - last)%Z.
Proof.
  intros Hmono H.
  unfold RefreshPolicyTime.can_update, datetime_now in H.
  cbn [last_refresh delta] in H.
  destruct (Z.ltb_spec us (clock E (ticks w) - last)) as [Hlt|Hge];
    [|discriminate H].
  inversion H; subst. exists (clock E (S (ticks w))).
  split; [reflexivity|].
  pose proof (Hmono (ticks w)). lia.
Qed.

Lemma time_gated_spacing_witness :
  exists last' : Z,
    last_refresh
      (RefreshPolicyTime.can_update E_steady_clock
         {| delta := Timedelta 1000000; last_refresh := Some 0%Z |}
         {| sent := []; draws := 0; ticks := 2 |}).1.2 = Some last' /\
    (1000000 < last' - 0)%Z.
Proof.
  apply (time_gated_spacing E_steady_clock 1000000 0
           {| sent := []; draws := 0; ticks := 2 |}
           (RefreshPolicyTime.can_update E_steady_clock
              {| delta := Timedelta 1000000; last_refresh := Some 0%Z |}
              {| sent := []; draws := 0; ticks := 2 |}).1.2
           (RefreshPolicyTime.can_update E_steady_clock
              {| delta := Timedelta 1000000; last_refresh := Some 0%Z |}
              {| sent := []; draws := 0; ticks := 2 |}).2).
  - intros i. cbn [clock E_steady_clock]. lia.
  - reflexivity.
Defined.

(** * Further properties of the write path *)

(** With a retry count of 0 or less the loop body never runs: the write
    path raises [UnboundLocalError] without any exchange, and so does
    [set]; nothing at all has changed. *)
Theorem write_without_attempts (E : Env) (frames : nat) (payload : Payload)
    (key : string) (val : value) (st : State) :
  (append_retry_attempts (self st) <= 0)%Z ->
  DistributedDict._append_log E frames payload st = (Raise UnboundLocalError, st) /\
  DistributedDict.__setitem__ E frames key val st = (Raise UnboundLocalError, st).
Proof.
  intros Hn.
  assert (forall p, DistributedDict._append_log E frames p st =
                    (Raise UnboundLocalError, st)) as H.
  { intros p. unfold DistributedDict._append_log. unfold bind at 1.
    unfold gets. unfold bind at 1.
    replace (Z.to_nat (append_retry_attempts (self st))) with 0 by lia.
    reflexivity. }
  split; [apply H|].
  unfold DistributedDict.__setitem__. unfold bind at 1. rewrite H.
  reflexivity.
Qed.

Lemma write_without_attempts_witness :
  DistributedDict._append_log E_accepts 1 (Delete "x")
    (client member_a mirror_x (-1) PolicyAlways) =
  (Raise UnboundLocalError, client member_a mirror_x (-1) PolicyAlways) /\
  DistributedDict.__setitem__ E_accepts 1 "x" (VInt 5)
    (client member_a mirror_x (-1) PolicyAlways) =
  (Raise UnboundLocalError, client member_a mirror_x (-1) PolicyAlways).
Proof.
  apply (write_without_attempts E_accepts 1 (Delete "x") "x" (VInt 5)
           (client member_a mirror_x (-1) PolicyAlways)).
  cbn. lia.
Defined.

(** Only an answer with a false [success] is retried.  When the connection
    fails, the write path raises the failure after that one exchange,
    however many attempts are allowed. *)
Theorem write_error_not_retried (E : Env) (frames : nat) (payload : Payload)
    (st : State) (a : address) (e : exn) :
  (1 <= append_retry_attempts (self st))%Z ->
  server_address (self st) = Some a ->
  net E (sent (world st)) a (Append payload) = inl e ->
  DistributedDict._append_log E (S frames) payload st =
  (Raise e, logged a (Append payload) st).
Proof.
  intros Hn Ha Hnet.
  unfold DistributedDict._append_log. unfold bind at 1. unfold gets.
  unfold bind at 1.
  destruct (Z.to_nat (append_retry_attempts (self st))) as [|n] eqn:Hk; [lia|].
  cbn [DistributedDict.attempts]. unfold bind at 1.
  unfold AbstractClient._append_log.
  rewrite (request_error E frames (Append payload) st a e Ha Hnet).
  reflexivity.
Qed.

Lemma write_error_not_retried_witness :
  DistributedDict._append_log E_down 1 (Change "x" (VInt 5))
    (client member_a ∅ 3 PolicyAlways) =
  (Raise OSError,
   logged member_a (Append (Change "x" (VInt 5)))
     (client member_a ∅ 3 PolicyAlways)).
Proof.
  apply (write_error_not_retried E_down 0 (Change "x" (VInt 5))
           (client member_a ∅ 3 PolicyAlways) member_a OSError);
    [cbn; lia|reflexivity|reflexivity].
Defined.

(** An answer to an append that is no redirect and carries no [success]
    makes the write path raise [KeyError] after that one exchange. *)
Theorem write_answer_without_success (E : Env) (frames : nat)
    (payload : Payload) (st : State) (a : address) (resp : dict) :
  (1 <= append_retry_attempts (self st))%Z ->
  server_address (self st) = Some a ->
  net E (sent (world st)) a (Append payload) = inr resp ->
  is_redirect resp = false ->
  resp !! "success" = None ->
  DistributedDict._append_log E (S frames) payload st =
  (Raise KeyError, logged a (Append payload) st).
Proof.
  intros Hn Ha Hnet Hr Hs.
  unfold DistributedDict._append_log. unfold bind at 1. unfold gets.
  unfold bind at 1.
  destruct (Z.to_nat (append_retry_attempts (self st))) as [|n] eqn:Hk; [lia|].
  cbn [DistributedDict.attempts]. unfold bind at 1.
  unfold AbstractClient._append_log.
  rewrite (request_answer E frames (Append payload) st a resp Ha Hnet Hr).
  unfold bind at 1. unfold getitem. rewrite Hs. reflexivity.
Qed.

Lemma write_answer_without_success_witness :
  DistributedDict._append_log E_no_success 1 (Change "x" (VInt 5))
    (client member_a ∅ 3 PolicyAlways) =
  (Raise KeyError,
   logged member_a (Append (Change "x" (VInt 5)))
     (client member_a ∅ 3 PolicyAlways)).
Proof.
  apply (write_answer_without_success E_no_success 0 (Change "x" (VInt 5))
           (client member_a ∅ 3 PolicyAlways) member_a ∅);
    [cbn; lia|reflexivity..].
Defined.

(** An attempt is a request, redirects included: when the tracked member
    [A] names [B] and [B] accepts the append, the write path has made one
    attempt of two exchanges, returns the answer of [B], and tracks [B]
    from then on, so that the next write goes to [B] at once. *)
Theorem write_follows_redirect (E : Env) (frames : nat) (payload : Payload)
    (st : State) (A B : address) (rA rB : dict) (leader : value) :
  (1 <= append_retry_attempts (self st))%Z ->
  server_address (self st) = Some A ->
  net E (sent (world st)) A (Append payload) = inr rA ->
  is_redirect rA = true ->
  rA !! "leader" = Some leader ->
  tuple leader = inr B ->
  net E (sent (world st) ++ [(A, Append payload)]) B (Append payload) = inr rB ->
  is_redirect rB = false ->
  succeeded rB = true ->
  DistributedDict._append_log E (S (S frames)) payload st =
  (Ret rB,
   {| self := with_server_address B (self st);
      world := {| sent := sent (world st) ++
                          [(A, Append payload); (B, Append payload)];
                  draws := draws (world st);
                  ticks := ticks (world st) |} |}).
Proof.
  intros Hn HA HnA HrA Hl Ht HnB HrB Hs.
  unfold DistributedDict._append_log. unfold bind at 1. unfold gets.
  unfold bind at 1.
  destruct (Z.to_nat (append_retry_attempts (self st))) as [|n] eqn:Hk; [lia|].
  cbn [DistributedDict.attempts]. unfold bind at 1.
  unfold AbstractClient._append_log.
  rewrite (request_chain E (Append payload) [B] rB st A (S (S frames)) HA).
  - unfold bind at 1. unfold getitem. unfold succeeded in Hs.
    destruct (rB !! "success") as [v|]; [|discriminate Hs].
    unfold ret at 1. rewrite Hs. reflexivity.
  - cbn [follows]. exists rA, leader. repeat split; assumption.
  - cbn. lia.
Qed.

Lemma write_follows_redirect_witness :
  DistributedDict._append_log E_follower_accepts 2 (Change "x" (VInt 5))
    (client member_a ∅ 3 PolicyAlways) =
  (Ret accepted,
   {| self := with_server_address member_b
                (self (client member_a ∅ 3 PolicyAlways));
      world := {| sent := sent (world (client member_a ∅ 3 PolicyAlways)) ++
                          [(member_a, Append (Change "x" (VInt 5)));
                           (member_b, Append (Change "x" (VInt 5)))];
                  draws := draws (world (client member_a ∅ 3 PolicyAlways));
                  ticks := ticks (world (client member_a ∅ 3 PolicyAlways)) |} |}).
Proof.
  apply (write_follows_redirect E_follower_accepts 0 (Change "x" (VInt 5))
           (client member_a ∅ 3 PolicyAlways) member_a member_b
           (redirect_to member_b) accepted (VList member_b));
    [cbn; lia|reflexivity..].
Defined.

(** [set] drops the result of the write path: against a leader that
    answers every append with a result, [set] returns [None] whether the
    write was accepted or refused at every attempt. *)
Theorem set_hides_refusal (E : Env) (frames : nat) (key : string) (val : value)
    (st : State) (a : address) :
  (1 <= append_retry_attempts (self st))%Z ->
  server_address (self st) = Some a ->
  (forall h, exists r,
     net E h a (Append (Change key val)) = inr r /\
     is_redirect r = false /\
     is_Some (r !! "success")) ->
  (DistributedDict.__setitem__ E (S frames) key val st).1 = Ret tt.
Proof.
  intros Hn Ha Hnet.
  destruct (Z.to_nat (append_retry_attempts (self st))) as [|n] eqn:Hk; [lia|].
  destruct (attempts_total E frames (Change key val) a n Hnet st None Ha)
    as (k & r & _ & Hrun & _).
  unfold DistributedDict.__setitem__. unfold bind at 1.
  unfold DistributedDict._append_log. unfold bind at 1. unfold gets.
  unfold bind at 1. rewrite Hk, Hrun. reflexivity.
Qed.

Lemma set_hides_refusal_witness :
  (DistributedDict.__setitem__ E_refuses 1 "x" (VInt 5)
     (client member_a ∅ 3 PolicyAlways)).1 = Ret tt.
Proof.
  apply (set_hides_refusal E_refuses 0 "x" (VInt 5)
           (client member_a ∅ 3 PolicyAlways) member_a).
  - cbn. lia.
  - reflexivity.
  - intros h. exists refused. repeat split. exists (VBool false). reflexivity.
Defined.

Lemma write_retry_returns_witness :
  exists (k : nat) (r : dict),
    1 <= k <= Z.to_nat (append_retry_attempts (self (client member_a ∅ 3 PolicyAlways))) /\
    DistributedDict._append_log E_second_try 1 (Change "x" (VInt 5))
      (client member_a ∅ 3 PolicyAlways) =
    (Ret r, logged_n k member_a (Append (Change "x" (VInt 5)))
              (client member_a ∅ 3 PolicyAlways)) /\
    net E_second_try
      (sent (world (client member_a ∅ 3 PolicyAlways)) ++
       repeat (member_a, Append (Change "x" (VInt 5))) (k - 1)) member_a
      (Append (Change "x" (VInt 5))) = inr r /\
    (succeeded r = true \/
     k = Z.to_nat (append_retry_attempts (self (client member_a ∅ 3 PolicyAlways)))).
Proof.
  apply (write_retry_returns E_second_try 0 (Change "x" (VInt 5))
           (client member_a ∅ 3 PolicyAlways) member_a).
  - cbn. lia.
  - reflexivity.
  - intros h. cbn [net E_second_try].
    destruct (length h =? 1)%nat.
    + exists accepted. repeat split. exists (VBool true). reflexivity.
    + exists refused. repeat split. exists (VBool false). reflexivity.
Defined.

(** * Further properties of deletion *)

Section DeleteMore.

Variable E : Env.

Lemma get_state_no_cluster frames st :
  data (self st) !! "cluster" = None ->
  AbstractClient._get_state E frames st = (Raise KeyError, st).
Proof.
  intros H. unfold AbstractClient._get_state. unfold bind at 1. unfold gets.
  unfold bind at 1. unfold getitem. rewrite H. reflexivity.
Qed.

(** The mirror after a deletion whose refresh fetched the key. *)
Lemma delitem_mirror frames key st snapshot st0 v :
  AbstractClient._get_state E frames st = (Ret snapshot, st0) ->
  snapshot !! key = Some v ->
  data (self (DistributedDict.__delitem__ E frames key st).2) =
  delete key snapshot.
Proof.
  intros Hg Hk.
  unfold DistributedDict.__delitem__. unfold bind at 1.
  rewrite (refresh_forced E frames st snapshot st0 Hg).
  unfold bind at 1. unfold delitem_data, DistributedDict.__keytransform__.
  cbn [self data with_data world]. rewrite Hk.
  unfold bind at 1.
  match goal with
  | |- context [DistributedDict._append_log E frames (Delete key) ?s] =>
      pose proof (append_log_frame E frames (Delete key) s) as (Hd & _);
      destruct (DistributedDict._append_log E frames (Delete key) s)
        as [[r|e] st2]
  end; exact Hd.
Qed.

End DeleteMore.

(** A deletion whose refresh fails deletes nothing: it raises what the
    refresh raised, the key is still in the mirror if it was, and no append
    has been sent. *)
Theorem delete_failed_refresh (E : Env) (frames : nat) (key : string)
    (st st0 : State) (e : exn) :
  AbstractClient._get_state E frames st = (Raise e, st0) ->
  DistributedDict.__delitem__ E frames key st = (Raise e, st0) /\
  data (self st0) = data (self st) /\
  exists l,
    sent (world st0) = sent (world st) ++ l /\ Forall (fun x => x.2 = Get) l.
Proof.
  intros Hg. split; [|split].
  - unfold DistributedDict.__delitem__, DistributedDict.refresh.
    unfold bind at 1. unfold bind at 1. unfold ret at 1.
    unfold bind at 1. rewrite Hg. reflexivity.
  - pose proof (get_state_frame E frames st) as (Hd & _).
    rewrite Hg in Hd. exact Hd.
  - destruct (get_state_sent E frames st) as (l & Hl & HP).
    rewrite Hg in Hl. exists l. split; assumption.
Qed.

Lemma delete_failed_refresh_witness :
  DistributedDict.__delitem__ E_down 1 "a" st_stale =
    (Raise OSError, (AbstractClient._get_state E_down 1 st_stale).2) /\
  data (self (AbstractClient._get_state E_down 1 st_stale).2) =
    data (self st_stale) /\
  exists l,
    sent (world (AbstractClient._get_state E_down 1 st_stale).2) =
    sent (world st_stale) ++ l /\ Forall (fun x => x.2 = Get) l.
Proof.
  apply (delete_failed_refresh E_down 1 "a" st_stale
           (AbstractClient._get_state E_down 1 st_stale).2 OSError).
  reflexivity.
Defined.

(** Deleting the key ['cluster'] deletes the list of members from the
    mirror: from then on a forced refresh raises [KeyError] without asking
    anyone and changes nothing, so that it fails in the same way the next
    time, and so does every deletion. *)
Theorem delete_cluster_key (E : Env) (frames : nat) (st : State)
    (snapshot : dict) (st0 : State) (v : value) :
  AbstractClient._get_state E frames st = (Ret snapshot, st0) ->
  snapshot !! "cluster" = Some v ->
  data (self (DistributedDict.__delitem__ E frames "cluster" st).2) !! "cluster" =
    None /\
  forall (frames' : nat) (key : string),
    DistributedDict.refresh E frames' true
      (DistributedDict.__delitem__ E frames "cluster" st).2 =
    (Raise KeyError, (DistributedDict.__delitem__ E frames "cluster" st).2) /\
    DistributedDict.__delitem__ E frames' key
      (DistributedDict.__delitem__ E frames "cluster" st).2 =
    (Raise KeyError, (DistributedDict.__delitem__ E frames "cluster" st).2).
Proof.
  intros Hg Hk.
  assert (data (self (DistributedDict.__delitem__ E frames "cluster" st).2)
            !! "cluster" = None) as Hnone.
  { rewrite (delitem_mirror E frames "cluster" st snapshot st0 v Hg Hk).
    apply lookup_delete_eq. }
  split; [exact Hnone|].
  intros frames' key.
  set (st2 := (DistributedDict.__delitem__ E frames "cluster" st).2) in *.
  assert (DistributedDict.refresh E frames' true st2 = (Raise KeyError, st2)) as Hr.
  { unfold DistributedDict.refresh. unfold bind at 1. unfold ret at 1.
    unfold bind at 1. rewrite (get_state_no_cluster E frames' st2 Hnone).
    reflexivity. }
  split; [exact Hr|].
  unfold DistributedDict.__delitem__. unfold bind at 1. rewrite Hr.
  reflexivity.
Qed.

Lemma delete_cluster_key_witness :
  data (self (DistributedDict.__delitem__ E_accepts 1 "cluster" st_locked).2)
    !! "cluster" = None /\
  forall (frames' : nat) (key : string),
    DistributedDict.refresh E_accepts frames' true
      (DistributedDict.__delitem__ E_accepts 1 "cluster" st_locked).2 =
    (Raise KeyError,
     (DistributedDict.__delitem__ E_accepts 1 "cluster" st_locked).2) /\
    DistributedDict.__delitem__ E_accepts frames' key
      (DistributedDict.__delitem__ E_accepts 1 "cluster" st_locked).2 =
    (Raise KeyError,
     (DistributedDict.__delitem__ E_accepts 1 "cluster" st_locked).2).
Proof.
  apply (delete_cluster_key E_accepts 1 st_locked mirror_x
           (AbstractClient._get_state E_accepts 1 st_locked).2
           (VList [VList member_a])); reflexivity.
Defined.

(** * The script *)

(** Run with a key and a value against a member at localhost:5255 that
    answers the read and accepts the append, the script makes two exchanges
    with that member, the read of construction and then the append of the
    change, and ends; run with any other number of arguments it does
    nothing. *)
Theorem main_run (E : Env) (frames : nat) (name k v : string) (w : World)
    (snapshot r : dict) :
  net E (sent w) [VStr "localhost"; VInt 5255] Get = inr snapshot ->
  is_redirect snapshot = false ->
  net E (sent w ++ [([VStr "localhost"; VInt 5255], Get)])
    [VStr "localhost"; VInt 5255] (Append (Change k (VStr v))) = inr r ->
  is_redirect r = false ->
  succeeded r = true ->
  main E (S frames) [name; k; v] w =
  (Ret tt,
   {| sent := sent w ++ [([VStr "localhost"; VInt 5255], Get);
                         ([VStr "localhost"; VInt 5255],
                          Append (Change k (VStr v)))];
      draws := S (draws w);
      ticks := ticks w |}) /\
  forall argv : list string, length argv <> 3 -> main E frames argv w = (Ret tt, w).
Proof.
  intros Hg Hgr Ha Har Hs. split.
  - unfold main. cbn [length Nat.eqb nth].
    rewrite (init_run E frames (VStr "localhost") (VInt 5255) 3 PolicyAlways w
               snapshot Hg Hgr).
    unfold DistributedDict.__setitem__. unfold bind at 1.
    unfold DistributedDict._append_log. unfold bind at 1. unfold gets.
    unfold bind at 1. cbn [self append_retry_attempts].
    change (Z.to_nat 3) with 3.
    rewrite (attempts_run E frames (Change k (VStr v))
               [VStr "localhost"; VInt 5255] 0 3 (fun _ => r)).
    + unfold logged_n. cbn. rewrite <- app_assoc. reflexivity.
    + reflexivity.
    + lia.
    + intros j Hj. assert (j = 0) as -> by lia.
      cbn [repeat world sent]. rewrite app_nil_r.
      split; [exact Ha|]. split; [exact Har|].
      unfold succeeded in Hs. destruct (r !! "success"); [eauto|discriminate Hs].
    + intros j Hj. lia.
    + left. exact Hs.
  - intros argv Hlen. unfold main.
    destruct (Nat.eqb_spec (length argv) 3) as [Heq|_]; [contradiction|].
    reflexivity.
Qed.

Lemma main_run_witness :
  main E_dict_machine 1 ["zatt"; "x"; "5"] world0 =
  (Ret tt,
   {| sent := sent world0 ++ [([VStr "localhost"; VInt 5255], Get);
                              ([VStr "localhost"; VInt 5255],
                               Append (Change "x" (VStr "5")))];
      draws := S (draws world0);
      ticks := ticks world0 |}) /\
  forall argv : list string,
    length argv <> 3 -> main E_dict_machine 0 argv world0 = (Ret tt, world0).
Proof.
  apply (main_run E_dict_machine 0 "zatt" "x" "5" world0 snapshot_gone accepted);
    reflexivity.
Defined.
